(** * Face blur pipeline: a shallow embedding of [utils/face_blur.py]

    The development follows the source file top-down:

    - frames as row-major grids of BGR pixels, with the two NumPy operations
      the code uses (reading a rectangular slice, assigning to one);
    - [blur_face_region] and the inline clamp-and-pad step of
      [detect_and_blur_faces];
    - the collaborators (filesystem, OpenCV decoder and encoder, MediaPipe
      detector) as a record of oracles whose calls may raise;
    - a small state-and-exception monad in which [blur_faces_in_image] and
      [blur_faces_in_video] are written statement by statement, including
      the [try]/[except] blocks and the ['cap' in locals()] tests. *)

From Stdlib Require Import String Ascii DecimalString.
From Stdlib Require Import ZArith QArith List Bool Lia.
Import ListNotations.

Local Open Scope string_scope.
Local Open Scope list_scope.
Local Open Scope Z_scope.

(* ================================================================== *)
(** ** Frames *)

(** One pixel in OpenCV's native channel order, 8 bits per channel. *)
Record pixel : Type := BGR { blue : Z; green : Z; red : Z }.

(** A frame is the list of its rows; [image.shape[0]] is the number of rows
    and [image.shape[1]] the number of columns.  NumPy arrays are
    rectangular, which [rectangular] records. *)
Definition frame : Type := list (list pixel).

Definition shape0 (image : frame) : Z := Z.of_nat (length image).

Definition shape1 (image : frame) : Z :=
  match image with
  | [] => 0
  | row :: _ => Z.of_nat (length row)
  end.

Definition rectangular (image : frame) : Prop :=
  Forall (fun row => Z.of_nat (length row) = shape1 image) image.

(** A frame has shape [(h, w)]. *)
Definition has_shape (h w : nat) (image : frame) : Prop :=
  length image = h /\ Forall (fun row => length row = w) image.

(** The pixel at row [i], column [j], when there is one. *)
Definition pixel_at (image : frame) (i j : nat) : option pixel :=
  match nth_error image i with
  | Some row => nth_error row j
  | None => None
  end.

(** Whether position [(i, j)] lies in the rectangle of origin [(x, y)],
    width [w] and height [h]. *)
Definition inside (y h x w : Z) (i j : nat) : bool :=
  (y <=? Z.of_nat i) && (Z.of_nat i <? y + h) && (x <=? Z.of_nat j) && (Z.of_nat j <? x + w).

(** [l[a:b]] for [0 <= a]: the only slices the code takes have a start that
    was clamped to at least 0.  As in Python, a slice that runs past the end
    of [l] is cut there. *)
Definition slice {A : Type} (a b : Z) (l : list A) : list A :=
  firstn (Z.to_nat (b - a)) (skipn (Z.to_nat a) l).

(** [image[y:y+h, x:x+w]] *)
Definition slice2 (y h x w : Z) (image : frame) : frame :=
  map (slice x (x + w)) (slice y (y + h) image).

(** [row[x:x+w] = new] *)
Definition assign_row (x w : Z) (new old : list pixel) : list pixel :=
  firstn (Z.to_nat x) old ++ new ++ skipn (Z.to_nat (x + w)) old.

Fixpoint assign_rows (x w : Z) (news olds : frame) : frame :=
  match news, olds with
  | new :: news', old :: olds' => assign_row x w new old :: assign_rows x w news' olds'
  | _, _ => olds
  end.

(** [image[y:y+h, x:x+w] = patch] *)
Definition assign_slice2 (y h x w : Z) (patch image : frame) : frame :=
  firstn (Z.to_nat y) image
    ++ assign_rows x w patch (slice y (y + h) image)
    ++ skipn (Z.to_nat (y + h)) image.

(* ================================================================== *)
(** ** Detections and the clamp-and-pad step *)

(** MediaPipe reports a box relative to the frame.  The coordinates are
    binary floating-point numbers in the source; every such number is a
    rational, and the model keeps them as exact rationals. *)
Module bbox.

Record t : Type := Make { xmin : Q; ymin : Q; width : Q; height : Q }.

End bbox.

(** A relative coordinate as the detector contract has it. *)
Definition in_unit_interval (q : Q) : Prop := (0 <= q)%Q /\ (q <= 1)%Q.

Record Detection : Type := { relative_bounding_box : bbox.t; score : Q }.

(** Python's [int] on a number: truncation toward zero. *)
Definition int (q : Q) : Z := Z.quot (Qnum q) (Z.pos (Qden q)).

(** Lines 81-92 of the source, with the local constant [padding] as a
    parameter: scale and truncate, pad, clamp. *)
Definition padded_region (padding : Z) (image : frame) (bbox : bbox.t) : Z * Z * Z * Z :=
  let h := shape0 image in
  let w := shape1 image in
  let x := int (bbox.xmin bbox * inject_Z w)%Q in
  let y := int (bbox.ymin bbox * inject_Z h)%Q in
  let width := int (bbox.width bbox * inject_Z w)%Q in
  let height := int (bbox.height bbox * inject_Z h)%Q in
  let x := Z.max 0 (x - padding) in
  let y := Z.max 0 (y - padding) in
  let width := Z.min (width + 2 * padding) (w - x) in
  let height := Z.min (height + 2 * padding) (h - y) in
  (x, y, width, height).

(* ================================================================== *)
(** ** The Gaussian filter

    [cv2.GaussianBlur(src, (k, k), 0)] returns an array of the size of [src]
    whose pixel at [(i, j)] is a weighted mean over a [k] by [k]
    neighbourhood.  The weights are floating point; the development keeps
    them abstract as [kernel], the function giving the output pixel at a
    position from the source patch and the kernel size. *)

(** [f] applied to every element of [l] with its index, counted from [i]. *)
Fixpoint mapi_from {A B : Type} (f : nat -> A -> B) (i : nat) (l : list A) : list B :=
  match l with
  | [] => []
  | a :: l' => f i a :: mapi_from f (S i) l'
  end.

Section Blur.

Variable kernel : frame -> Z -> nat -> nat -> pixel.

Definition GaussianBlur (src : frame) (ksize : Z) : frame :=
  mapi_from (fun i row => mapi_from (fun j _ => kernel src ksize i j) 0%nat row) 0%nat src.

(** The bounding box after the first four assignments of [blur_face_region]
    ("Ensure coordinates are within image bounds"). *)
Definition clamp_bbox (image : frame) (bbox : Z * Z * Z * Z) : Z * Z * Z * Z :=
  let '(x, y, w, h) := bbox in
  let x := Z.max 0 x in
  let y := Z.max 0 y in
  let w := Z.min w (shape1 image - x) in
  let h := Z.min h (shape0 image - y) in
  (x, y, w, h).

Definition blur_face_region (image : frame) (bbox : Z * Z * Z * Z) (blur_factor : Z) : frame :=
  let '(x, y, w, h) := clamp_bbox image bbox in
  if (w <=? 0) || (h <=? 0) then image
  else
    let face_region := slice2 y h x w image in
    let blurred_face := GaussianBlur face_region (blur_factor * 2 + 1) in
    assign_slice2 y h x w blurred_face image.

(* ================================================================== *)
(** ** The frame redactor *)

Definition padding : Z := 20.

(** The body of [for detection in results.detections], threading the two
    variables it updates.  [blur_face_region] is called with its default
    [blur_factor=100]. *)
Fixpoint blur_detections (detections : list Detection) (image : frame) (faces_detected : Z)
  : frame * Z :=
  match detections with
  | [] => (image, faces_detected)
  | detection :: rest =>
      let bbox := relative_bounding_box detection in
      let image := blur_face_region image (padded_region padding image bbox) 100 in
      blur_detections rest image (faces_detected + 1)
  end.

End Blur.

(* ================================================================== *)
(** ** Exceptions and collaborators *)

(** The exceptions the pipelines can meet.  [ZeroDivisionError] is raised by
    Python's own [/]; everything a collaborator raises (cv2.error, OSError,
    ValueError, ...) is an [Exception] known here by its [str]. *)
Inductive exn : Type :=
| ZeroDivisionError
| Error (msg : string).

Definition str (e : exn) : string :=
  match e with
  | ZeroDivisionError => "division by zero"
  | Error msg => msg
  end.

Inductive result (A : Type) : Type :=
| Ok (a : A)
| Raise (e : exn).
Arguments Ok {A} a.
Arguments Raise {A} e.

(** A [cv2.VideoCapture]: what [isOpened] answers, what
    [int(cap.get(...))] gives for the four properties read, and the
    outcomes of the successive [cap.read()] calls that do not report the end
    of the stream.  After the last one [read] returns [ret = False]. *)
Record VideoCapture : Type := {
  cap_isOpened : bool;
  cap_FPS : result Z;
  cap_FRAME_WIDTH : result Z;
  cap_FRAME_HEIGHT : result Z;
  cap_FRAME_COUNT : result Z;
  cap_read : list (result frame)
}.

(** A [cv2.VideoWriter]: [write] may depend on the frames already written. *)
Record VideoWriter : Type := {
  out_isOpened : bool;
  out_write : list frame -> frame -> result unit
}.

Record Collaborators : Type := {
  os_path_exists : string -> bool;
  os_remove : string -> result unit;
  cv2_imread : string -> result (option frame);
  cv2_imwrite : string -> frame -> result bool;
  cv2_cvtColor_BGR2RGB : frame -> result frame;
  cv2_gaussian_kernel : frame -> Z -> nat -> nat -> pixel;
  cv2_VideoCapture : string -> result VideoCapture;
  cv2_VideoWriter : string -> Z -> Z * Z -> result VideoWriter;
  (** [FaceDetection(model_selection=0, min_detection_confidence=c).process(rgb)];
      the empty list stands for [results.detections] being [None]. *)
  face_detection_process : Q -> frame -> result (list Detection)
}.

(** What the pipelines do to the outside world, in order.  [EvImread],
    [EvImwrite], [EvOutWrite] and [EvRemove] are recorded when the call is
    made, whatever its outcome; a constructor is recorded when it returns,
    with what [isOpened()] will answer.  [os.path.exists], [isOpened],
    [release] and [print] are the calls taken not to raise; a video file is
    a finite stream, so [cap_read] is a list. *)
Inductive stdout_line : Type :=
| ProcessingVideo (total_frames fps : Z)
| Progress (progress : Q) (frame_count total_frames : Z).

Inductive event : Type :=
| EvImread (path : string)
| EvImwrite (path : string) (image : frame)
| EvVideoCapture (path : string) (opened : bool)
| EvCapRelease
| EvVideoWriter (path : string) (fps width height : Z) (opened : bool)
| EvOutWrite (image : frame)
| EvOutRelease
| EvPrint (line : stdout_line)
| EvRemove (path : string).

(** The trace so far and the two locals the [except] block of
    [blur_faces_in_video] looks up with ['cap' in locals()]. *)
Record state : Type := {
  trace : list event;
  cap : option VideoCapture;
  out : option VideoWriter
}.

Definition initial : state := {| trace := []; cap := None; out := None |}.

Definition frames_written (tr : list event) : list frame :=
  flat_map (fun ev => match ev with EvOutWrite f => [f] | _ => [] end) tr.

(* ================================================================== *)
(** ** The pipeline monad *)

Definition M (A : Type) : Type := state -> state * result A.

Definition ret {A : Type} (a : A) : M A := fun s => (s, Ok a).

Definition bind {A B : Type} (m : M A) (k : A -> M B) : M B :=
  fun s =>
    match m s with
    | (s', Ok a) => k a s'
    | (s', Raise e) => (s', Raise e)
    end.

Definition lift {A : Type} (r : result A) : M A := fun s => (s, r).

Definition emit (ev : event) : M unit :=
  fun s => ({| trace := trace s ++ [ev]; cap := cap s; out := out s |}, Ok tt).

(** [try: m except Exception as e: handler e] *)
Definition try_except {A : Type} (m : M A) (handler : exn -> M A) : M A :=
  fun s =>
    match m s with
    | (s', Ok a) => (s', Ok a)
    | (s', Raise e) => handler e s'
    end.

(** [try: m except: pass] *)
Definition try_pass (m : M unit) : M unit :=
  fun s => (fst (m s), Ok tt).

Declare Scope pipeline_scope.
Delimit Scope pipeline_scope with pipeline.
Notation "x <- m ;; k" := (bind m (fun x => k))
  (at level 100, m at next level, right associativity) : pipeline_scope.
Notation "' p <- m ;; k" := (bind m (fun p => k))
  (at level 100, p pattern, m at next level, right associativity) : pipeline_scope.
Notation "m ;; k" := (bind m (fun _ => k))
  (at level 100, right associativity) : pipeline_scope.

(** The decimal rendering of an integer in an f-string. *)
Definition str_Z (n : Z) : string := NilEmpty.string_of_int (Z.to_int n).

(** Python's true division [a / b] of two integers. *)
Definition true_div (a b : Z) : result Q :=
  if b =? 0 then Raise ZeroDivisionError else Ok (inject_Z a / inject_Z b)%Q.

Section Pipelines.

Variable E : Collaborators.

Local Open Scope pipeline_scope.

(* ------------------------------------------------------------------ *)
(** *** [detect_and_blur_faces] *)

Definition detect_and_blur_faces (image : frame) (confidence_threshold : Q)
  : result (frame * Z) :=
  match cv2_cvtColor_BGR2RGB E image with
  | Raise e => Raise e
  | Ok rgb_image =>
      match face_detection_process E confidence_threshold rgb_image with
      | Raise e => Raise e
      | Ok detections =>
          match detections with
          | [] => Ok (image, 0)
          | _ :: _ => Ok (blur_detections (cv2_gaussian_kernel E) detections image 0)
          end
      end
  end.

Definition default_confidence : Q := 37 # 100.

(* ------------------------------------------------------------------ *)
(** *** [blur_faces_in_image] *)

Definition image_try (input_path output_path : string) : M (bool * string) :=
  if negb (os_path_exists E input_path) then ret (false, "Input file not found")
  else
    emit (EvImread input_path) ;;
    image <- lift (cv2_imread E input_path) ;;
    match image with
    | None => ret (false, "Could not read image file. Please check the file format.")
    | Some image =>
        ' (processed_image, faces_count) <- lift (detect_and_blur_faces image default_confidence) ;;
        emit (EvImwrite output_path processed_image) ;;
        success <- lift (cv2_imwrite E output_path processed_image) ;;
        if negb success then ret (false, "Failed to save processed image")
        else
          let message :=
            ("Successfully processed image. " ++ str_Z faces_count
               ++ " face(s) detected and blurred.")%string in
          ret (true, message)
    end.

Definition image_except (e : exn) : M (bool * string) :=
  ret (false, ("Error processing image: " ++ str e)%string).

Definition blur_faces_in_image (input_path output_path : string)
  : state * result (bool * string) :=
  try_except (image_try input_path output_path) image_except initial.

(* ------------------------------------------------------------------ *)
(** *** [blur_faces_in_video] *)

(** [cap = cv2.VideoCapture(input_path)]: the local is bound when the
    constructor returns. *)
Definition new_VideoCapture (input_path : string) : M VideoCapture :=
  fun s =>
    match cv2_VideoCapture E input_path with
    | Raise e => (s, Raise e)
    | Ok c =>
        ({| trace := trace s ++ [EvVideoCapture input_path (cap_isOpened c)];
            cap := Some c; out := out s |}, Ok c)
    end.

(** [out = cv2.VideoWriter(output_path, fourcc, fps, (width, height))] *)
Definition new_VideoWriter (output_path : string) (fps : Z) (size : Z * Z) : M VideoWriter :=
  fun s =>
    match cv2_VideoWriter E output_path fps size with
    | Raise e => (s, Raise e)
    | Ok o =>
        ({| trace := trace s ++ [EvVideoWriter output_path fps (fst size) (snd size)
                                               (out_isOpened o)];
            cap := cap s; out := Some o |}, Ok o)
    end.

(** [out.write(processed_frame)] *)
Definition write (o : VideoWriter) (processed_frame : frame) : M unit :=
  fun s =>
    let s' := {| trace := trace s ++ [EvOutWrite processed_frame];
                 cap := cap s; out := out s |} in
    (s', out_write o (frames_written (trace s)) processed_frame).

Definition print (line : stdout_line) : M unit := emit (EvPrint line).

(** The [while True] loop, by recursion on the reads the decoder still has
    to answer; [reads = []] is [ret = False] and the [break]. *)
Fixpoint frame_loop (o : VideoWriter) (total_frames : Z) (reads : list (result frame))
    (frame_count total_faces_detected : Z) : M (Z * Z) :=
  match reads with
  | [] => ret (frame_count, total_faces_detected)
  | read :: reads' =>
      frame <- lift read ;;
      ' (processed_frame, faces_in_frame) <-
          lift (detect_and_blur_faces frame default_confidence) ;;
      let total_faces_detected := total_faces_detected + faces_in_frame in
      write o processed_frame ;;
      let frame_count := frame_count + 1 in
      (if frame_count mod 30 =? 0 then
         quotient <- lift (true_div frame_count total_frames) ;;
         let progress := (quotient * 100)%Q in
         print (Progress progress frame_count total_frames)
       else ret tt) ;;
      frame_loop o total_frames reads' frame_count total_faces_detected
  end.

Definition video_message (total_faces_detected frame_count : Z) : string :=
  ("Successfully processed video. " ++ str_Z total_faces_detected
     ++ " face instances detected and blurred across " ++ str_Z frame_count
     ++ " frames.")%string.

Definition video_try (input_path output_path : string) : M (bool * string) :=
  if negb (os_path_exists E input_path) then ret (false, "Input file not found")
  else
    c <- new_VideoCapture input_path ;;
    if negb (cap_isOpened c) then
      ret (false, "Could not open video file. Please check the file format.")
    else
      fps <- lift (cap_FPS c) ;;
      width <- lift (cap_FRAME_WIDTH c) ;;
      height <- lift (cap_FRAME_HEIGHT c) ;;
      total_frames <- lift (cap_FRAME_COUNT c) ;;
      o <- new_VideoWriter output_path fps (width, height) ;;
      if negb (out_isOpened o) then
        emit EvCapRelease ;;
        ret (false, "Could not create output video file")
      else
        print (ProcessingVideo total_frames fps) ;;
        ' (frame_count, total_faces_detected) <-
            frame_loop o total_frames (cap_read c) 0 0 ;;
        emit EvCapRelease ;;
        emit EvOutRelease ;;
        try_pass (emit (EvRemove input_path) ;; lift (os_remove E input_path)) ;;
        ret (true, video_message total_faces_detected frame_count).

(** [if 'cap' in locals(): cap.release()] and the same for [out]. *)
Definition release_if_bound {A : Type} (local : state -> option A) (ev : event) : M unit :=
  fun s =>
    match local s with
    | Some _ => emit ev s
    | None => (s, Ok tt)
    end.

Definition video_except (e : exn) : M (bool * string) :=
  try_pass (release_if_bound cap EvCapRelease ;; release_if_bound out EvOutRelease) ;;
  ret (false, ("Error processing video: " ++ str e)%string).

Definition blur_faces_in_video (input_path output_path : string)
  : state * result (bool * string) :=
  try_except (video_try input_path output_path) video_except initial.

End Pipelines.

(* ================================================================== *)
(** ** Observations on a run *)

(** Which of the two streams are open after a trace, starting from
    [cap_open] and [out_open].  A constructor opens its stream when
    [isOpened()] holds; [release()] closes it. *)
Fixpoint open_streams (tr : list event) (cap_open out_open : bool) : bool * bool :=
  match tr with
  | [] => (cap_open, out_open)
  | EvVideoCapture _ opened :: tr' => open_streams tr' (cap_open || opened) out_open
  | EvCapRelease :: tr' => open_streams tr' false out_open
  | EvVideoWriter _ _ _ _ opened :: tr' => open_streams tr' cap_open (out_open || opened)
  | EvOutRelease :: tr' => open_streams tr' cap_open false
  | _ :: tr' => open_streams tr' cap_open out_open
  end.

(** An event that neither opens nor releases a stream. *)
Definition quiet (ev : event) : Prop :=
  match ev with
  | EvVideoCapture _ _ | EvCapRelease | EvVideoWriter _ _ _ _ _ | EvOutRelease => False
  | _ => True
  end.

(** The face count the redactor returns for a frame. *)
Definition faces_in (E : Collaborators) (image : frame) : Z :=
  match detect_and_blur_faces E image default_confidence with
  | Ok (_, faces) => faces
  | Raise _ => 0
  end.

Definition total_faces (E : Collaborators) (frames : list frame) : Z :=
  fold_right Z.add 0 (map (faces_in E) frames).

(** One blur pass per detection, in the order of the list. *)
Definition blur_pass (kernel : frame -> Z -> nat -> nat -> pixel)
    (image : frame) (detection : Detection) : frame :=
  blur_face_region kernel image
    (padded_region padding image (relative_bounding_box detection)) 100.

(* ================================================================== *)
(** ** Sample data

    Small concrete frames, a concrete filter and concrete collaborators, on
    which the definitions above can be run. *)

Definition grey (v : Z) : pixel := BGR v v v.

(** A 3 by 4 frame whose pixels are all different. *)
Definition sample_frame : frame :=
  [ [grey 10; grey 20; grey 30; grey 40];
    [grey 50; grey 60; grey 70; grey 85];
    [grey 90; grey 100; grey 110; grey 120] ].

(** A crude filter: every output pixel is the channel-wise mean of the
    whole source patch. *)
Definition channel_mean (channel : pixel -> Z) (src : frame) : Z :=
  let values := map channel (concat src) in
  fold_right Z.add 0 values / Z.max 1 (Z.of_nat (length values)).

Definition mean_kernel (src : frame) (ksize : Z) (i j : nat) : pixel :=
  BGR (channel_mean blue src) (channel_mean green src) (channel_mean red src).

Definition sample_box : bbox.t := bbox.Make (1 # 4) (1 # 3) (1 # 2) (1 # 3).

Definition sample_detection : Detection :=
  {| relative_bounding_box := sample_box; score := 9 # 10 |}.

Definition sample_capture (frame_count : Z) (frames : list (result frame)) : VideoCapture :=
  {| cap_isOpened := true;
     cap_FPS := Ok 25;
     cap_FRAME_WIDTH := Ok 4;
     cap_FRAME_HEIGHT := Ok 3;
     cap_FRAME_COUNT := Ok frame_count;
     cap_read := frames |}.

Definition sample_writer : VideoWriter :=
  {| out_isOpened := true; out_write := fun _ _ => Ok tt |}.

Definition swap_channels (image : frame) : frame :=
  map (map (fun p => BGR (red p) (green p) (blue p))) image.

(** Collaborators that all work: the files of [files] exist, every image is
    [sample_frame], every video has the given reported frame count and the
    given reads, and the detector answers [detections] on every frame. *)
Definition studio (files : list string) (frame_count : Z) (frames : list (result frame))
    (detections : list Detection) : Collaborators :=
  {| os_path_exists := fun path => existsb (String.eqb path) files;
     os_remove := fun _ => Ok tt;
     cv2_imread := fun _ => Ok (Some sample_frame);
     cv2_imwrite := fun _ _ => Ok true;
     cv2_cvtColor_BGR2RGB := fun image => Ok (swap_channels image);
     cv2_gaussian_kernel := mean_kernel;
     cv2_VideoCapture := fun _ => Ok (sample_capture frame_count frames);
     cv2_VideoWriter := fun _ _ _ => Ok sample_writer;
     face_detection_process := fun _ _ => Ok detections |}.

(** A one-pixel frame. *)
Definition dot : frame := [[grey 1]].

(** A writer that the encoder could not open. *)
Definition closed_writer : VideoWriter :=
  {| out_isOpened := false; out_write := fun _ _ => Raise (Error "writer is not open") |}.

(** [E] with another answer to [cv2.VideoWriter(...)]. *)
Definition with_writer (E : Collaborators) (w : result VideoWriter) : Collaborators :=
  {| os_path_exists := os_path_exists E;
     os_remove := os_remove E;
     cv2_imread := cv2_imread E;
     cv2_imwrite := cv2_imwrite E;
     cv2_cvtColor_BGR2RGB := cv2_cvtColor_BGR2RGB E;
     cv2_gaussian_kernel := cv2_gaussian_kernel E;
     cv2_VideoCapture := cv2_VideoCapture E;
     cv2_VideoWriter := fun _ _ _ => w;
     face_detection_process := face_detection_process E |}.

(** [E] with an image writer that always raises. *)
Definition with_failing_imwrite (E : Collaborators) (msg : string) : Collaborators :=
  {| os_path_exists := os_path_exists E;
     os_remove := os_remove E;
     cv2_imread := cv2_imread E;
     cv2_imwrite := fun _ _ => Raise (Error msg);
     cv2_cvtColor_BGR2RGB := cv2_cvtColor_BGR2RGB E;
     cv2_gaussian_kernel := cv2_gaussian_kernel E;
     cv2_VideoCapture := cv2_VideoCapture E;
     cv2_VideoWriter := cv2_VideoWriter E;
     face_detection_process := face_detection_process E |}.

(* ================================================================== *)
(** ** Further observations *)

(** The region the redactor blurs for a detection, and whether a position
    lies in it. *)
Definition region_of (image : frame) (detection : Detection) : Z * Z * Z * Z :=
  padded_region padding image (relative_bounding_box detection).

Definition in_region (image : frame) (detection : Detection) (i j : nat) : bool :=
  let '(x, y, w, h) := region_of image detection in inside y h x w i j.

(** The frame the redactor hands back for [image]. *)
Definition redacted (E : Collaborators) (image : frame) : frame :=
  match detect_and_blur_faces E image default_confidence with
  | Ok (processed, _) => processed
  | Raise _ => image
  end.


(** Lines 82-85: the detector's box in pixels, before padding. *)
Definition scaled_box (image : frame) (bbox : bbox.t) : Z * Z * Z * Z :=
  let h := shape0 image in
  let w := shape1 image in
  (int (bbox.xmin bbox * inject_Z w)%Q,
   int (bbox.ymin bbox * inject_Z h)%Q,
   int (bbox.width bbox * inject_Z w)%Q,
   int (bbox.height bbox * inject_Z h)%Q).


(** A frame of one row and sixty columns, and a detection in its left
    corner. *)
Definition strip : frame := [map (fun n => grey (Z.of_nat n)) (seq 0 60)].

Definition corner_detection : Detection :=
  {| relative_bounding_box := bbox.Make 0 0 (1 # 10) 1; score := 8 # 10 |}.


(** The events the frame loop produces: writes and progress lines. *)
Definition loop_event (ev : event) : Prop :=
  match ev with
  | EvOutWrite _ | EvPrint _ => True
  | _ => False
  end.

(** A run that does not get as far as the frame loop. *)
Definition early_run (E : Collaborators) (input_path output_path : string) (s : state)
  : Prop :=
  trace s = []
  \/ trace s = [EvVideoCapture input_path false]
  \/ trace s = [EvVideoCapture input_path true; EvCapRelease]
  \/ exists c fps width height,
       cv2_VideoCapture E input_path = Ok c
       /\ cap_isOpened c = true
       /\ cap_FPS c = Ok fps
       /\ cap_FRAME_WIDTH c = Ok width
       /\ cap_FRAME_HEIGHT c = Ok height
       /\ trace s = [EvVideoCapture input_path true;
                     EvVideoWriter output_path fps width height false;
                     EvCapRelease].

(** A run that enters the frame loop, with both streams open. *)
Definition streaming_run (E : Collaborators) (input_path output_path : string)
    (c : VideoCapture) (o : VideoWriter) (fps width height total_frames : Z) : Prop :=
  os_path_exists E input_path = true
  /\ cv2_VideoCapture E input_path = Ok c
  /\ cap_isOpened c = true
  /\ cap_FPS c = Ok fps
  /\ cap_FRAME_WIDTH c = Ok width
  /\ cap_FRAME_HEIGHT c = Ok height
  /\ cap_FRAME_COUNT c = Ok total_frames
  /\ cv2_VideoWriter E output_path fps (width, height) = Ok o
  /\ out_isOpened o = true.


(* ================================================================== *)
(** ** [get_video_info] *)

(** The dictionary [get_video_info] returns: [{"error": ...}] or the five
    entries of the video. *)
Inductive video_info : Type :=
| InfoError (error : string)
| Info (fps width height frame_count : Z) (duration : Q).

Section VideoInfo.

Variable E : Collaborators.

Local Open Scope pipeline_scope.

(** The dictionary display reads the frame rate, the width, the height and
    the frame count, then the frame count and the frame rate once more for
    the duration. *)
Definition video_info_try (video_path : string) : M video_info :=
  c <- new_VideoCapture E video_path ;;
  if negb (cap_isOpened c) then ret (InfoError "Could not open video file")
  else
    fps <- lift (cap_FPS c) ;;
    width <- lift (cap_FRAME_WIDTH c) ;;
    height <- lift (cap_FRAME_HEIGHT c) ;;
    frame_count <- lift (cap_FRAME_COUNT c) ;;
    count_again <- lift (cap_FRAME_COUNT c) ;;
    fps_again <- lift (cap_FPS c) ;;
    duration <- lift (true_div count_again fps_again) ;;
    emit EvCapRelease ;;
    ret (Info fps width height frame_count duration).

Definition video_info_except (e : exn) : M video_info :=
  ret (InfoError ("Error getting video info: " ++ str e)%string).

Definition get_video_info (video_path : string) : state * result video_info :=
  try_except (video_info_try video_path) video_info_except initial.

End VideoInfo.

(** A capture that reports the given frame rate and frame count. *)
Definition capture_reporting (fps frame_count : Z) : VideoCapture :=
  {| cap_isOpened := true;
     cap_FPS := Ok fps;
     cap_FRAME_WIDTH := Ok 4;
     cap_FRAME_HEIGHT := Ok 3;
     cap_FRAME_COUNT := Ok frame_count;
     cap_read := [] |}.

(** [E] with another answer to [cv2.VideoCapture(...)]. *)
Definition with_capture (E : Collaborators) (c : result VideoCapture) : Collaborators :=
  {| os_path_exists := os_path_exists E;
     os_remove := os_remove E;
     cv2_imread := cv2_imread E;
     cv2_imwrite := cv2_imwrite E;
     cv2_cvtColor_BGR2RGB := cv2_cvtColor_BGR2RGB E;
     cv2_gaussian_kernel := cv2_gaussian_kernel E;
     cv2_VideoCapture := fun _ => c;
     cv2_VideoWriter := cv2_VideoWriter E;
     face_detection_process := face_detection_process E |}.


(* ================================================================== *)
(** ** File names ([app.py])

    File names are strings of 8-bit characters.  [str.lower] is modelled on
    the ASCII letters and leaves every other character as it is. *)

Definition lower_char (c : ascii) : ascii :=
  let n := nat_of_ascii c in
  if ((65 <=? n) && (n <=? 90))%nat then ascii_of_nat (n + 32) else c.

Fixpoint lower (s : string) : string :=
  match s with
  | EmptyString => EmptyString
  | String c s' => String (lower_char c) (lower s')
  end.

(** ['.' in filename] *)
Fixpoint has_dot (s : string) : bool :=
  match s with
  | EmptyString => false
  | String c s' => (c =? ".")%char || has_dot s'
  end.

(** The text before the last dot of [s] and the text after it, when [s] has
    a dot. *)
Fixpoint rsplit_dot (s : string) : option (string * string) :=
  match s with
  | EmptyString => None
  | String c s' =>
      match rsplit_dot s' with
      | Some (before, after) => Some (String c before, after)
      | None => if (c =? ".")%char then Some (EmptyString, s') else None
      end
  end.

(** [s.rsplit('.', 1)]: one element when [s] has no dot, two otherwise. *)
Definition rsplit (s : string) : list string :=
  match rsplit_dot s with
  | Some (before, after) => [before; after]
  | None => [s]
  end.

(** [x in S] for a set of strings. *)
Definition in_set (x : string) (S : list string) : bool := existsb (String.eqb x) S.

Definition ALLOWED_IMAGE_EXTENSIONS : list string := ["png"; "jpg"; "jpeg"].
Definition ALLOWED_VIDEO_EXTENSIONS : list string := ["mp4"; "avi"; "mov"].
Definition ALLOWED_EXTENSIONS : list string :=
  ALLOWED_IMAGE_EXTENSIONS ++ ALLOWED_VIDEO_EXTENSIONS.

(** In the three predicates the index [[1]] is only evaluated behind the
    ['.' in filename] test, where [rsplit] has two elements. *)
Definition allowed_file (filename : string) : bool :=
  has_dot filename && in_set (lower (nth 1 (rsplit filename) "")) ALLOWED_EXTENSIONS.

Definition is_image_file (filename : string) : bool :=
  has_dot filename && in_set (lower (nth 1 (rsplit filename) "")) ALLOWED_IMAGE_EXTENSIONS.

Definition is_video_file (filename : string) : bool :=
  has_dot filename && in_set (lower (nth 1 (rsplit filename) "")) ALLOWED_VIDEO_EXTENSIONS.

(** [unique_id] is [str(uuid.uuid4())]. *)
Definition generate_unique_filename (unique_id original_filename : string) : string :=
  let extension :=
    if has_dot original_filename then lower (nth 1 (rsplit original_filename) "") else "" in
  (unique_id ++ "." ++ extension)%string.

(* ================================================================== *)
(** ** The upload handler ([app.py]) *)

(** The uploaded file: its client-side name and what [file.save(path)]
    does. *)
Record FileStorage : Type := {
  file_filename : string;
  file_save : string -> result unit
}.

(** What looking into [request.files] gives: werkzeug raises
    [RequestEntityTooLarge] there when the body is over the limit; otherwise
    the entry ['file'] is present or not. *)
Inductive request_files : Type :=
| TooLarge
| FilesFault (e : exn)
| Files (file : option FileStorage).

(** The web collaborators: werkzeug's [secure_filename], the string of a
    fresh UUID, and Flask's [url_for] for the two endpoints used. *)
Record Web : Type := {
  secure_filename : string -> string;
  uuid4 : string;
  url_for_static : string -> string;
  url_for_download : string -> string
}.

(** The JSON bodies the handler builds. *)
Inductive json : Type :=
| JsonError (error : string)
| JsonResult (file_type result_url download_url message : string).

Inductive web_event : Type :=
| WebSave (path : string)
| WebPipeline (tr : list event)
| WebRemove (path : string).

Definition UPLOAD_FOLDER : string := "static/uploads".
Definition RESULTS_FOLDER : string := "static/results".

(** [os.path.join(folder, name)] for a folder that does not end in a slash:
    a name that starts with a slash replaces the folder. *)
Definition path_join (folder name : string) : string :=
  match name with
  | String "/" _ => name
  | _ => (folder ++ "/" ++ name)%string
  end.

(** The answer of the outer [except Exception as e]. *)
Definition unexpected (e : exn) : json * Z :=
  (JsonError ("An error occurred: " ++ str e)%string, 500).

Definition image_result_filename (unique_filename : string) : string :=
  ("blurred_" ++ unique_filename)%string.

Definition video_result_filename (unique_filename : string) : string :=
  ("blurred_" ++ nth 0 (rsplit unique_filename) "" ++ ".mp4")%string.

(** [upload_file]: what it does, and the response it returns; [None] is the
    function running off its end without a [return]. *)
Definition upload_file (W : Web) (E : Collaborators) (files : request_files)
  : list web_event * option (json * Z) :=
  match files with
  | TooLarge => ([], Some (JsonError "File too large. Maximum size is 100MB", 413))
  | FilesFault e => ([], Some (unexpected e))
  | Files None => ([], Some (JsonError "No file selected", 400))
  | Files (Some file) =>
      if (file_filename file =? "")%string then
        ([], Some (JsonError "No file selected", 400))
      else if negb (allowed_file (file_filename file)) then
        ([], Some (JsonError "File type not supported. Please upload images (jpg, jpeg, png) or videos (mp4, avi, mov)", 400))
      else
        let original_filename := secure_filename W (file_filename file) in
        let unique_filename := generate_unique_filename (uuid4 W) original_filename in
        let filepath := path_join UPLOAD_FOLDER unique_filename in
        match file_save file filepath with
        | Raise e => ([WebSave filepath], Some (unexpected e))
        | Ok _ =>
            if is_image_file unique_filename then
              let result_filename := image_result_filename unique_filename in
              let result_path := path_join RESULTS_FOLDER result_filename in
              let run := blur_faces_in_image E filepath result_path in
              ([WebSave filepath; WebPipeline (trace (fst run))],
               Some match snd run with
                    | Raise e => unexpected e
                    | Ok (true, message) =>
                        (JsonResult "image"
                           (url_for_static W ("results/" ++ result_filename)%string)
                           (url_for_download W result_filename) message, 200)
                    | Ok (false, message) =>
                        (JsonError ("Failed to process image: " ++ message)%string, 500)
                    end)
            else if is_video_file unique_filename then
              let result_filename := video_result_filename unique_filename in
              let result_path := path_join RESULTS_FOLDER result_filename in
              let run := blur_faces_in_video E filepath result_path in
              ([WebSave filepath; WebPipeline (trace (fst run))],
               Some match snd run with
                    | Raise e => unexpected e
                    | Ok (true, message) =>
                        (JsonResult "video"
                           (url_for_static W ("results/" ++ result_filename)%string)
                           (url_for_download W result_filename) message, 200)
                    | Ok (false, message) =>
                        (JsonError ("Failed to process video: " ++ message)%string, 500)
                    end)
            else
              ([WebSave filepath; WebRemove filepath], None)
        end
  end.

(** Sample web collaborators.  The sanitiser removes leading dots, one of
    the things werkzeug's [secure_filename] does. *)
Fixpoint strip_leading_dots (s : string) : string :=
  match s with
  | String "." s' => strip_leading_dots s'
  | _ => s
  end.

Definition sample_web : Web :=
  {| secure_filename := strip_leading_dots;
     uuid4 := "0b5f8a52-5c1e-4f0e-9a63-3d1f0e6c7a11";
     url_for_static := fun name => ("/static/" ++ name)%string;
     url_for_download := fun name => ("/download/" ++ name)%string |}.

Definition sample_upload (name : string) : FileStorage :=
  {| file_filename := name; file_save := fun _ => Ok tt |}.


(** The frame counts of the progress lines of a trace, in order. *)
Definition progress_counts (tr : list event) : list Z :=
  flat_map (fun ev => match ev with
                      | EvPrint (Progress _ frame_count _) => [frame_count]
                      | _ => []
                      end) tr.

(** The numbers [n + 1], ..., [n + len]. *)
Fixpoint frame_numbers (n : Z) (len : nat) : list Z :=
  match len with
  | O => []
  | S len' => (n + 1) :: frame_numbers (n + 1) len'
  end.

Definition multiple_of_30 (n : Z) : bool := n mod 30 =? 0.

(* ================================================================== *)
(** * Properties *)

(** ** Splicing a list: the shape and the content of a slice assignment *)

Section Splice.

Context {A : Type}.

Lemma length_slice (a b : Z) (l : list A) :
  0 <= a -> a <= b -> b <= Z.of_nat (length l) ->
  length (slice a b l) = Z.to_nat (b - a).
Proof.
  intros Ha Hab Hb. unfold slice.
  rewrite length_firstn, length_skipn. lia.
Qed.

Lemma nth_error_slice (a b : Z) (l : list A) (k : nat) :
  nth_error (slice a b l) k
  = if (k <? Z.to_nat (b - a))%nat then nth_error l (Z.to_nat a + k) else None.
Proof.
  unfold slice. rewrite nth_error_firstn, nth_error_skipn. reflexivity.
Qed.

Lemma In_slice (a b : Z) (l : list A) (v : A) :
  In v (slice a b l) -> In v l.
Proof.
  intro Hin. apply In_nth_error in Hin. destruct Hin as [k Hk].
  rewrite nth_error_slice in Hk.
  destruct (k <? Z.to_nat (b - a))%nat; [| discriminate].
  eapply nth_error_In; eassumption.
Qed.

Lemma length_splice (a n : nat) (mid l : list A) :
  length mid = n -> (a + n <= length l)%nat ->
  length (firstn a l ++ mid ++ skipn (a + n) l) = length l.
Proof.
  intros Hmid Hfit.
  rewrite !length_app, length_firstn, length_skipn. lia.
Qed.

Lemma nth_error_splice (a n : nat) (mid l : list A) (k : nat) :
  length mid = n -> (a + n <= length l)%nat ->
  nth_error (firstn a l ++ mid ++ skipn (a + n) l) k
  = if ((a <=? k) && (k <? a + n))%nat then nth_error mid (k - a) else nth_error l k.
Proof.
  intros Hmid Hfit.
  assert (Hpre : length (firstn a l) = a) by (rewrite length_firstn; lia).
  destruct (Nat.leb_spec a k) as [Hak | Hka]; cbn [andb].
  - rewrite nth_error_app2 by lia. rewrite Hpre.
    destruct (Nat.ltb_spec k (a + n)) as [Hin | Hout].
    + apply nth_error_app1. lia.
    + rewrite nth_error_app2 by lia.
      rewrite nth_error_skipn. f_equal. lia.
  - rewrite nth_error_app1 by lia.
    rewrite nth_error_firstn.
    destruct (Nat.ltb_spec k a); [reflexivity | lia].
Qed.

Lemma length_mapi_from {B : Type} (f : nat -> A -> B) (i : nat) (l : list A) :
  length (mapi_from f i l) = length l.
Proof.
  revert i. induction l as [| a l IH]; intro i; cbn; [reflexivity | now rewrite IH].
Qed.

Lemma nth_error_mapi_from {B : Type} (f : nat -> A -> B) (i : nat) (l : list A) (k : nat) :
  nth_error (mapi_from f i l) k = option_map (f (i + k)%nat) (nth_error l k).
Proof.
  revert i k. induction l as [| a l IH]; intros i [| k]; cbn; try reflexivity.
  - now rewrite Nat.add_0_r.
  - rewrite IH. now rewrite Nat.add_succ_r.
Qed.

End Splice.

(** ** Shapes *)

Lemma rectangular_has_shape (image : frame) :
  rectangular image ->
  has_shape (Z.to_nat (shape0 image)) (Z.to_nat (shape1 image)) image.
Proof.
  intro Hrect. split.
  - unfold shape0. lia.
  - eapply Forall_impl; [| exact Hrect]. cbn. intros row Hrow. lia.
Qed.

Lemma has_shape_row (h w : nat) (image : frame) (i : nat) (row : list pixel) :
  has_shape h w image -> nth_error image i = Some row -> length row = w.
Proof.
  intros [_ Hrows] Hi.
  rewrite Forall_forall in Hrows. apply Hrows. eapply nth_error_In; eassumption.
Qed.

Lemma has_shape_slice2 (H W : nat) (y h x w : Z) (image : frame) :
  has_shape H W image ->
  0 <= x -> 0 <= w -> x + w <= Z.of_nat W ->
  0 <= y -> 0 <= h -> y + h <= Z.of_nat H ->
  has_shape (Z.to_nat h) (Z.to_nat w) (slice2 y h x w image).
Proof.
  intros [Hlen Hrows] Hx Hw Hxw Hy Hh Hyh. unfold slice2. split.
  - rewrite length_map, length_slice by lia. f_equal. lia.
  - rewrite Forall_map.
    apply Forall_forall. intros row Hin.
    apply In_slice in Hin.
    rewrite Forall_forall in Hrows. specialize (Hrows row Hin).
    rewrite length_slice by lia. f_equal. lia.
Qed.

Lemma has_shape_GaussianBlur kernel (h w : nat) (src : frame) (ksize : Z) :
  has_shape h w src -> has_shape h w (GaussianBlur kernel src ksize).
Proof.
  intros [Hlen Hrows]. unfold GaussianBlur. split.
  - now rewrite length_mapi_from.
  - apply Forall_forall. intros row Hin.
    apply In_nth_error in Hin. destruct Hin as [i Hi].
    rewrite nth_error_mapi_from in Hi.
    destruct (nth_error src i) as [srow |] eqn:Hsrc; [| discriminate].
    cbn in Hi. injection Hi as <-.
    rewrite length_mapi_from.
    rewrite Forall_forall in Hrows. apply Hrows. eapply nth_error_In; eassumption.
Qed.

Lemma length_assign_rows (x w : Z) (news olds : frame) :
  length (assign_rows x w news olds) = length olds.
Proof.
  revert olds. induction news as [| new news IH]; intros [| old olds]; cbn; try reflexivity.
  now rewrite IH.
Qed.

Lemma nth_error_assign_rows (x w : Z) (news olds : frame) (k : nat) :
  nth_error (assign_rows x w news olds) k
  = match nth_error news k, nth_error olds k with
    | Some new, Some old => Some (assign_row x w new old)
    | _, old => old
    end.
Proof.
  revert olds k. induction news as [| new news IH]; intros olds k.
  - now destruct k.
  - destruct olds as [| old olds]; cbn.
    + destruct k; cbn; [reflexivity | now destruct (nth_error news k)].
    + destruct k; cbn; [reflexivity | apply IH].
Qed.

Section Assign.

Variables (H W : nat) (y h x w : Z) (patch image : frame).
Hypothesis image_shape : has_shape H W image.
Hypothesis patch_shape : has_shape (Z.to_nat h) (Z.to_nat w) patch.
Hypothesis x_range : 0 <= x /\ 0 <= w /\ x + w <= Z.of_nat W.
Hypothesis y_range : 0 <= y /\ 0 <= h /\ y + h <= Z.of_nat H.

Lemma nth_error_assign_row (new old : list pixel) (j : nat) :
  length new = Z.to_nat w -> length old = W ->
  nth_error (assign_row x w new old) j
  = if (x <=? Z.of_nat j) && (Z.of_nat j <? x + w)
    then nth_error new (j - Z.to_nat x) else nth_error old j.
Proof.
  intros Hnew Hold. unfold assign_row.
  replace (Z.to_nat (x + w)) with (Z.to_nat x + Z.to_nat w)%nat by lia.
  rewrite nth_error_splice by lia.
  destruct (Nat.leb_spec (Z.to_nat x) j), (Z.leb_spec x (Z.of_nat j)); try lia; cbn [andb];
    [| reflexivity].
  destruct (Nat.ltb_spec j (Z.to_nat x + Z.to_nat w)), (Z.ltb_spec (Z.of_nat j) (x + w));
    try lia; reflexivity.
Qed.

Lemma has_shape_assign_slice2 : has_shape H W (assign_slice2 y h x w patch image).
Proof.
  destruct image_shape as [Hlen Hrows], patch_shape as [Hplen Hprows].
  assert (Hmid : length (assign_rows x w patch (slice y (y + h) image)) = Z.to_nat h).
  { rewrite length_assign_rows, length_slice by lia. f_equal. lia. }
  unfold assign_slice2.
  replace (Z.to_nat (y + h)) with (Z.to_nat y + Z.to_nat h)%nat by lia.
  split.
  - rewrite length_splice by lia. exact Hlen.
  - apply Forall_forall. intros row Hin.
    apply In_nth_error in Hin. destruct Hin as [i Hi].
    rewrite nth_error_splice in Hi by lia.
    destruct ((Z.to_nat y <=? i) && (i <? Z.to_nat y + Z.to_nat h))%nat.
    + rewrite nth_error_assign_rows in Hi.
      destruct (nth_error patch (i - Z.to_nat y)) as [new |] eqn:Hnew.
      * destruct (nth_error (slice y (y + h) image) (i - Z.to_nat y)) as [old |] eqn:Hold;
          [| discriminate].
        injection Hi as <-.
        apply nth_error_In, In_slice in Hold.
        rewrite Forall_forall in Hrows, Hprows.
        specialize (Hrows old Hold).
        specialize (Hprows new (nth_error_In _ _ Hnew)).
        unfold assign_row.
        replace (Z.to_nat (x + w)) with (Z.to_nat x + Z.to_nat w)%nat by lia.
        rewrite length_splice by lia. exact Hrows.
      * apply nth_error_In, In_slice in Hi.
        rewrite Forall_forall in Hrows. now apply Hrows.
    + rewrite Forall_forall in Hrows. apply Hrows. eapply nth_error_In; eassumption.
Qed.

Lemma pixel_at_assign_slice2 (i j : nat) :
  pixel_at (assign_slice2 y h x w patch image) i j
  = if inside y h x w i j
    then pixel_at patch (i - Z.to_nat y) (j - Z.to_nat x)
    else pixel_at image i j.
Proof.
  destruct image_shape as [Hlen Hrows], patch_shape as [Hplen Hprows].
  assert (Hmid : length (assign_rows x w patch (slice y (y + h) image)) = Z.to_nat h).
  { rewrite length_assign_rows, length_slice by lia. f_equal. lia. }
  unfold pixel_at at 1, assign_slice2, inside.
  replace (Z.to_nat (y + h)) with (Z.to_nat y + Z.to_nat h)%nat by lia.
  rewrite nth_error_splice by lia.
  destruct (Nat.leb_spec (Z.to_nat y) i), (Z.leb_spec y (Z.of_nat i)); try lia; cbn [andb];
    [| reflexivity].
  destruct (Nat.ltb_spec i (Z.to_nat y + Z.to_nat h)), (Z.ltb_spec (Z.of_nat i) (y + h));
    try lia; cbn [andb]; [| reflexivity].
  rewrite nth_error_assign_rows, nth_error_slice.
  destruct (Nat.ltb_spec (i - Z.to_nat y) (Z.to_nat (y + h - y))); [| lia].
  replace (Z.to_nat y + (i - Z.to_nat y))%nat with i by lia.
  destruct (nth_error patch (i - Z.to_nat y)) as [new |] eqn:Hnew.
  2: { apply nth_error_None in Hnew. lia. }
  destruct (nth_error image i) as [old |] eqn:Hold.
  2: { apply nth_error_None in Hold. lia. }
  rewrite nth_error_assign_row.
  - unfold pixel_at. rewrite Hnew, Hold. reflexivity.
  - exact (has_shape_row _ _ _ _ _ patch_shape Hnew).
  - exact (has_shape_row _ _ _ _ _ image_shape Hold).
Qed.

End Assign.

(* ================================================================== *)
(** ** The region blur operator *)

Lemma clamp_bbox_bounds (image : frame) (b : Z * Z * Z * Z) (x y w h : Z) :
  clamp_bbox image b = (x, y, w, h) ->
  0 <= x /\ 0 <= y /\ x + w <= shape1 image /\ y + h <= shape0 image.
Proof.
  destruct b as [[[x0 y0] w0] h0]. cbn. intro Heq. injection Heq as <- <- <- <-. lia.
Qed.

Lemma blur_face_region_unfold kernel (image : frame) (b : Z * Z * Z * Z) (bf x y w h : Z) :
  clamp_bbox image b = (x, y, w, h) ->
  blur_face_region kernel image b bf
  = if (w <=? 0) || (h <=? 0) then image
    else assign_slice2 y h x w
           (GaussianBlur kernel (slice2 y h x w image) (bf * 2 + 1)) image.
Proof.
  intro Heq. unfold blur_face_region. rewrite Heq. reflexivity.
Qed.

(** C7. A region whose width or height is 0 or negative once
    [blur_face_region] has clamped it leaves the frame as it is: the
    function returns the very same grid of pixels, and it does so by the
    early [return image], not through a fault. *)
Theorem blur_face_region_degenerate kernel (image : frame) (b : Z * Z * Z * Z)
    (blur_factor x y w h : Z) :
  clamp_bbox image b = (x, y, w, h) ->
  w <= 0 \/ h <= 0 ->
  blur_face_region kernel image b blur_factor = image.
Proof.
  intros Heq Hdeg. rewrite (blur_face_region_unfold _ _ _ _ _ _ _ _ Heq).
  destruct Hdeg as [Hw | Hh].
  - apply Z.leb_le in Hw. now rewrite Hw.
  - apply Z.leb_le in Hh. rewrite Hh. now rewrite orb_true_r.
Qed.

(** Witness for C7: a box that starts beyond the right edge of the sample
    frame has a negative width after clamping. *)
Lemma blur_face_region_degenerate_witness :
  clamp_bbox sample_frame (7, 1, 2, 2) = (7, 1, -3, 2)
  /\ blur_face_region mean_kernel sample_frame (7, 1, 2, 2) 100 = sample_frame.
Proof.
  split; [reflexivity |].
  apply (blur_face_region_degenerate mean_kernel sample_frame (7, 1, 2, 2) 100 7 1 (-3) 2).
  - reflexivity.
  - left. lia.
Defined.

(** C10. Whatever integer box [blur_face_region] is given, the rectangle
    it works on after clamping has a non-negative origin and ends within the
    frame; when the function goes on to blur, the slice it reads has exactly
    the clamped height and width (nothing of it falls outside the frame);
    the result has the shape of the input; and every pixel outside the
    clamped rectangle is the pixel of the input. *)
Theorem blur_face_region_in_bounds kernel (image : frame) (b : Z * Z * Z * Z)
    (blur_factor x y w h : Z) :
  rectangular image ->
  clamp_bbox image b = (x, y, w, h) ->
  (0 <= x /\ 0 <= y /\ x + w <= shape1 image /\ y + h <= shape0 image)
  /\ (0 < w -> 0 < h -> has_shape (Z.to_nat h) (Z.to_nat w) (slice2 y h x w image))
  /\ has_shape (Z.to_nat (shape0 image)) (Z.to_nat (shape1 image))
       (blur_face_region kernel image b blur_factor)
  /\ (forall i j : nat,
        inside y h x w i j = false ->
        pixel_at (blur_face_region kernel image b blur_factor) i j = pixel_at image i j).
Proof.
  intros Hrect Heq.
  pose proof (clamp_bbox_bounds _ _ _ _ _ _ Heq) as (Hx & Hy & Hxw & Hyh).
  pose proof (rectangular_has_shape _ Hrect) as Hshape.
  assert (Hread : 0 < w -> 0 < h ->
                  has_shape (Z.to_nat h) (Z.to_nat w) (slice2 y h x w image)).
  { intros Hw Hh.
    apply (has_shape_slice2 _ _ _ _ _ _ _ Hshape); lia. }
  split; [lia |]. split; [exact Hread |].
  rewrite (blur_face_region_unfold _ _ _ _ _ _ _ _ Heq).
  destruct (Z.leb_spec w 0) as [Hw | Hw]; cbn [orb].
  { split; [exact Hshape | reflexivity]. }
  destruct (Z.leb_spec h 0) as [Hh | Hh].
  { split; [exact Hshape | reflexivity]. }
  pose proof (has_shape_GaussianBlur kernel _ _ _ (blur_factor * 2 + 1) (Hread Hw Hh))
    as Hpatch.
  assert (Hxr : 0 <= x /\ 0 <= w /\ x + w <= Z.of_nat (Z.to_nat (shape1 image))) by lia.
  assert (Hyr : 0 <= y /\ 0 <= h /\ y + h <= Z.of_nat (Z.to_nat (shape0 image)))
    by (unfold shape0 in *; lia).
  split.
  - exact (has_shape_assign_slice2 _ _ _ _ _ _ _ _ Hshape Hpatch Hxr Hyr).
  - intros i j Hout.
    rewrite (pixel_at_assign_slice2 _ _ _ _ _ _ _ _ Hshape Hpatch Hxr Hyr).
    now rewrite Hout.
Qed.

Lemma sample_frame_rectangular : rectangular sample_frame.
Proof. repeat constructor. Qed.

(** On the sample frame, a box that sticks out on the left and at the
    bottom is cut to rows 1-2, columns 0-2, and only those pixels change. *)
Example blur_face_region_sample :
  blur_face_region mean_kernel sample_frame (-1, 1, 3, 5) 100
  = [ [grey 10; grey 20; grey 30; grey 40];
      [grey 80; grey 80; grey 80; grey 85];
      [grey 80; grey 80; grey 80; grey 120] ].
Proof. vm_compute. reflexivity. Qed.

(** Witness for C10, at that same box. *)
Lemma blur_face_region_in_bounds_witness :
  rectangular sample_frame
  /\ clamp_bbox sample_frame (-1, 1, 3, 5) = (0, 1, 3, 2)
  /\ pixel_at (blur_face_region mean_kernel sample_frame (-1, 1, 3, 5) 100) 2 3
     = Some (grey 120).
Proof.
  split; [exact sample_frame_rectangular |]. split; [reflexivity |].
  destruct (blur_face_region_in_bounds mean_kernel sample_frame (-1, 1, 3, 5) 100 0 1 3 2
              sample_frame_rectangular eq_refl) as (_ & _ & _ & Houtside).
  rewrite Houtside; reflexivity.
Defined.

(* ================================================================== *)
(** ** The clamp-and-pad step *)

(** The clamp alone already gives containment: [max] floors the origin and
    [min] caps the extent, for any truncated box and any padding. *)
Lemma padded_region_clamped (pad : Z) (image : frame) (b : bbox.t) (x y w h : Z) :
  padded_region pad image b = (x, y, w, h) ->
  0 <= x /\ 0 <= y /\ x + w <= shape1 image /\ y + h <= shape0 image.
Proof.
  unfold padded_region. intro Heq. injection Heq as <- <- <- <-. lia.
Qed.

(** C1. For a relative box with all four coordinates in [0, 1] and a frame
    of positive width and height, the region computed by the clamp-and-pad
    step of [detect_and_blur_faces] has [0 <= x], [0 <= y],
    [x + width <= W] and [y + height <= H], for every padding value. *)
Theorem padded_region_within_frame (pad : Z) (image : frame) (b : bbox.t) (x y w h : Z) :
  0 < shape1 image ->
  0 < shape0 image ->
  in_unit_interval (bbox.xmin b) ->
  in_unit_interval (bbox.ymin b) ->
  in_unit_interval (bbox.width b) ->
  in_unit_interval (bbox.height b) ->
  padded_region pad image b = (x, y, w, h) ->
  0 <= x /\ 0 <= y /\ x + w <= shape1 image /\ y + h <= shape0 image.
Proof.
  intros _ _ _ _ _ _ Heq. exact (padded_region_clamped _ _ _ _ _ _ _ Heq).
Qed.

Lemma sample_box_in_unit_square :
  in_unit_interval (bbox.xmin sample_box) /\ in_unit_interval (bbox.ymin sample_box)
  /\ in_unit_interval (bbox.width sample_box) /\ in_unit_interval (bbox.height sample_box).
Proof. unfold in_unit_interval, Qle; cbn. lia. Qed.

(** Witness for C1: the sample box on the sample frame with padding 1. *)
Lemma padded_region_within_frame_witness :
  padded_region 1 sample_frame sample_box = (0, 0, 4, 3)
  /\ 0 <= 0 /\ 0 <= 0 /\ 0 + 4 <= shape1 sample_frame /\ 0 + 3 <= shape0 sample_frame.
Proof.
  split; [reflexivity |].
  destruct sample_box_in_unit_square as (Hx & Hy & Hw & Hh).
  apply (padded_region_within_frame 1 sample_frame sample_box 0 0 4 3);
    try assumption; reflexivity.
Defined.

(* ================================================================== *)
(** ** The frame redactor *)

Section Redactor.

Variable E : Collaborators.

Lemma blur_detections_fold kernel (detections : list Detection) (image : frame) (n : Z) :
  blur_detections kernel detections image n
  = (fold_left (blur_pass kernel) detections image, n + Z.of_nat (length detections)).
Proof.
  revert image n. induction detections as [| d ds IH]; intros image n.
  - cbn. f_equal. lia.
  - cbn [blur_detections fold_left length]. rewrite IH. unfold blur_pass at 2.
    f_equal. lia.
Qed.

(** C6. When the detector returns [detections] on a frame, the redactor
    returns the count [length detections], whether or not the boxes overlap
    or repeat, and the frame it returns is the input after one blur pass per
    detection, taken in the order of the list. *)
Theorem detect_and_blur_faces_count (image rgb_image : frame) (c : Q)
    (detections : list Detection) :
  cv2_cvtColor_BGR2RGB E image = Ok rgb_image ->
  face_detection_process E c rgb_image = Ok detections ->
  detect_and_blur_faces E image c
  = Ok (fold_left (blur_pass (cv2_gaussian_kernel E)) detections image,
        Z.of_nat (length detections)).
Proof.
  intros Hrgb Hdet. unfold detect_and_blur_faces. rewrite Hrgb, Hdet.
  destruct detections as [| d ds]; [reflexivity |].
  now rewrite blur_detections_fold.
Qed.

(** C8. When the detector returns no detection, the redactor returns the
    frame it was given, pixel for pixel, and the count 0. *)
Theorem detect_and_blur_faces_no_detection (image rgb_image : frame) (c : Q) :
  cv2_cvtColor_BGR2RGB E image = Ok rgb_image ->
  face_detection_process E c rgb_image = Ok [] ->
  detect_and_blur_faces E image c = Ok (image, 0).
Proof.
  intros Hrgb Hdet. unfold detect_and_blur_faces. now rewrite Hrgb, Hdet.
Qed.

End Redactor.

(** Witness for C6: the same detection reported twice counts twice. *)
Lemma detect_and_blur_faces_count_witness :
  detect_and_blur_faces (studio [] 0 [] [sample_detection; sample_detection])
    sample_frame default_confidence
  = Ok (fold_left (blur_pass mean_kernel) [sample_detection; sample_detection] sample_frame,
        2).
Proof.
  apply (detect_and_blur_faces_count
           (studio [] 0 [] [sample_detection; sample_detection])
           sample_frame (swap_channels sample_frame)
           default_confidence [sample_detection; sample_detection]); reflexivity.
Defined.

(** Witness for C8. *)
Lemma detect_and_blur_faces_no_detection_witness :
  detect_and_blur_faces (studio [] 0 [] []) sample_frame default_confidence
  = Ok (sample_frame, 0).
Proof.
  apply (detect_and_blur_faces_no_detection (studio [] 0 [] []) sample_frame
           (swap_channels sample_frame) default_confidence); reflexivity.
Defined.

(* ================================================================== *)
(** ** The pipeline boundary *)

Section Boundary.

Variable E : Collaborators.

(** C9. When [os.path.exists(input_path)] is false, both pipelines return
    [(False, "Input file not found")], and they return it from the initial
    state: the trace is empty, so nothing was decoded and nothing written. *)
Theorem missing_input_not_found (input_path output_path : string) :
  os_path_exists E input_path = false ->
  blur_faces_in_image E input_path output_path
    = (initial, Ok (false, "Input file not found"))
  /\ blur_faces_in_video E input_path output_path
    = (initial, Ok (false, "Input file not found")).
Proof.
  intro Hmissing.
  unfold blur_faces_in_image, blur_faces_in_video, try_except, image_try, video_try.
  rewrite Hmissing. split; reflexivity.
Qed.

Lemma try_except_total {A : Type} (m : M A) (handler : exn -> M A) (s : state) :
  (forall e s', exists a, snd (handler e s') = Ok a) ->
  exists a, snd (try_except m handler s) = Ok a.
Proof.
  intro Hhandler. unfold try_except.
  destruct (m s) as [s' [a | e]]; [now exists a | apply Hhandler].
Qed.

Lemma try_except_converts {A : Type} (m : M A) (handler : exn -> M A) (s s' : state)
    (e : exn) :
  m s = (s', Raise e) -> try_except m handler s = handler e s'.
Proof.
  intro Hraise. unfold try_except. now rewrite Hraise.
Qed.

Lemma video_except_result (e : exn) (s : state) :
  snd (video_except e s) = Ok (false, ("Error processing video: " ++ str e)%string).
Proof. reflexivity. Qed.

(** C4. Whatever the collaborators do, each pipeline returns a pair of a
    flag and a message and raises nothing; and whenever the [try] block of
    a pipeline raises [e], the pipeline returns [False] with the message
    that carries [str(e)]. *)
Theorem pipelines_never_raise (input_path output_path : string) :
  (exists success message,
      snd (blur_faces_in_image E input_path output_path) = Ok (success, message))
  /\ (exists success message,
      snd (blur_faces_in_video E input_path output_path) = Ok (success, message))
  /\ (forall s e,
      image_try E input_path output_path initial = (s, Raise e) ->
      snd (blur_faces_in_image E input_path output_path)
      = Ok (false, ("Error processing image: " ++ str e)%string))
  /\ (forall s e,
      video_try E input_path output_path initial = (s, Raise e) ->
      snd (blur_faces_in_video E input_path output_path)
      = Ok (false, ("Error processing video: " ++ str e)%string)).
Proof.
  repeat split.
  - destruct (try_except_total (image_try E input_path output_path) image_except initial)
      as [[success message] Hret].
    + intros e s'. eexists. reflexivity.
    + now exists success, message.
  - destruct (try_except_total (video_try E input_path output_path) video_except initial)
      as [[success message] Hret].
    + intros e s'. eexists. apply video_except_result.
    + now exists success, message.
  - intros s e Hraise. unfold blur_faces_in_image.
    now rewrite (try_except_converts _ _ _ _ _ Hraise).
  - intros s e Hraise. unfold blur_faces_in_video.
    rewrite (try_except_converts _ _ _ _ _ Hraise). apply video_except_result.
Qed.

End Boundary.

(** Witness for C9. *)
Lemma missing_input_not_found_witness :
  os_path_exists (studio ["portrait.png"] 0 [] []) "holiday.png" = false
  /\ blur_faces_in_image (studio ["portrait.png"] 0 [] []) "holiday.png" "out.png"
    = (initial, Ok (false, "Input file not found"))
  /\ blur_faces_in_video (studio ["portrait.png"] 0 [] []) "holiday.png" "out.mp4"
    = (initial, Ok (false, "Input file not found")).
Proof.
  split; [reflexivity |].
  apply (missing_input_not_found (studio ["portrait.png"] 0 [] []) "holiday.png" "out.png").
  reflexivity.
Defined.

(* ================================================================== *)
(** ** The video pipeline *)

Lemma open_streams_app (tr tr' : list event) (a b : bool) :
  open_streams (tr ++ tr') a b
  = open_streams tr' (fst (open_streams tr a b)) (snd (open_streams tr a b)).
Proof.
  revert a b. induction tr as [| ev tr IH]; intros a b; [reflexivity |].
  destruct ev; cbn; apply IH.
Qed.

Lemma open_streams_quiet (tr : list event) (ev : event) (a b : bool) :
  quiet ev -> open_streams (tr ++ [ev]) a b = open_streams tr a b.
Proof.
  intro Hquiet. rewrite open_streams_app.
  destruct ev; cbn in *; try contradiction; now destruct (open_streams tr a b).
Qed.

(** A trace that ends with the decode stream closed contains, after every
    event that opened it, a release; and the same for the encode stream. *)
Lemma open_streams_cap_closed (tr : list event) (b : bool) :
  fst (open_streams tr true b) = false -> In EvCapRelease tr.
Proof.
  revert b. induction tr as [| ev tr IH]; intros b Hclosed; [discriminate |].
  destruct ev; cbn in Hclosed; try (right; eapply IH; eassumption).
  now left.
Qed.

Lemma open_streams_out_closed (tr : list event) (a : bool) :
  snd (open_streams tr a true) = false -> In EvOutRelease tr.
Proof.
  revert a. induction tr as [| ev tr IH]; intros a Hclosed; [discriminate |].
  destruct ev; cbn in Hclosed; try (right; eapply IH; eassumption).
  now left.
Qed.

Lemma released_after_opening (tr : list event) :
  open_streams tr false false = (false, false) ->
  (forall tr1 path tr2,
      tr = tr1 ++ EvVideoCapture path true :: tr2 -> In EvCapRelease tr2)
  /\ (forall tr1 path fps width height tr2,
      tr = tr1 ++ EvVideoWriter path fps width height true :: tr2 -> In EvOutRelease tr2).
Proof.
  intro Hclosed. split.
  - intros tr1 path tr2 ->. rewrite open_streams_app in Hclosed. cbn in Hclosed.
    rewrite orb_true_r in Hclosed.
    eapply open_streams_cap_closed. rewrite Hclosed. reflexivity.
  - intros tr1 path fps width height tr2 ->. rewrite open_streams_app in Hclosed.
    cbn in Hclosed. rewrite orb_true_r in Hclosed.
    eapply open_streams_out_closed. rewrite Hclosed. reflexivity.
Qed.

Lemma map_Ok_inj {A : Type} (l l' : list A) :
  map (@Ok A) l = map (@Ok A) l' -> l = l'.
Proof.
  revert l'. induction l as [| a l IH]; intros [| a' l'] Heq; cbn in Heq;
    try discriminate; [reflexivity |].
  injection Heq as -> Hrest. f_equal. now apply IH.
Qed.

(** The cases of the frame loop that end in a fault. *)
Ltac loop_faulted :=
  cbn;
  split; [reflexivity |];
  split; [reflexivity |];
  split;
  [ intros ? ?; first [reflexivity | now apply open_streams_quiet]
  | intros ? ? Hret; discriminate Hret ].

Section Video.

Variable E : Collaborators.

(** One turn of the [while] loop, written out. *)
Lemma frame_loop_cons (o : VideoWriter) (total_frames : Z) (read : result frame)
    (reads : list (result frame)) (frame_count total_faces_detected : Z) (s : state) :
  frame_loop E o total_frames (read :: reads) frame_count total_faces_detected s
  = match read with
    | Raise e => (s, Raise e)
    | Ok frame =>
        match detect_and_blur_faces E frame default_confidence with
        | Raise e => (s, Raise e)
        | Ok (processed_frame, faces_in_frame) =>
            let s1 := {| trace := trace s ++ [EvOutWrite processed_frame];
                         cap := cap s; out := out s |} in
            match out_write o (frames_written (trace s)) processed_frame with
            | Raise e => (s1, Raise e)
            | Ok _ =>
                if (frame_count + 1) mod 30 =? 0 then
                  if total_frames =? 0 then (s1, Raise ZeroDivisionError)
                  else
                    let line := Progress (inject_Z (frame_count + 1) / inject_Z total_frames
                                          * 100)%Q (frame_count + 1) total_frames in
                    frame_loop E o total_frames reads (frame_count + 1)
                      (total_faces_detected + faces_in_frame)
                      {| trace := trace s1 ++ [EvPrint line]; cap := cap s; out := out s |}
                else
                  frame_loop E o total_frames reads (frame_count + 1)
                    (total_faces_detected + faces_in_frame) s1
            end
        end
    end.
Proof.
  cbn [frame_loop]. unfold bind, lift, write, print, emit, ret, true_div.
  destruct read as [frame | e]; [| reflexivity].
  destruct (detect_and_blur_faces E frame default_confidence) as [[pf n] | e];
    [| reflexivity].
  cbn zeta. destruct (out_write o (frames_written (trace s)) pf) as [u | e]; [| reflexivity].
  destruct ((frame_count + 1) mod 30 =? 0); [| reflexivity].
  destruct (total_frames =? 0); reflexivity.
Qed.

(** What one run of the frame loop does: it leaves the two locals alone,
    opens and releases nothing, and when it ends without raising, every
    read was a frame and the two counters have advanced by the number of
    frames and by the faces found in them. *)
Lemma frame_loop_spec (o : VideoWriter) (total_frames : Z) (reads : list (result frame)) :
  forall (frame_count total_faces_detected : Z) (s : state),
    let run := frame_loop E o total_frames reads frame_count total_faces_detected s in
    cap (fst run) = cap s
    /\ out (fst run) = out s
    /\ (forall a b, open_streams (trace (fst run)) a b = open_streams (trace s) a b)
    /\ (forall frame_count' total',
          snd run = Ok (frame_count', total') ->
          exists frames,
            reads = map Ok frames
            /\ frame_count' = frame_count + Z.of_nat (length frames)
            /\ total' = total_faces_detected + total_faces E frames).
Proof.
  induction reads as [| read reads IH]; intros frame_count total_faces_detected s run.
  - subst run. cbn. split; [reflexivity |]. split; [reflexivity |].
    split; [reflexivity |].
    intros fc' tf' Hret. injection Hret as <- <-.
    exists []. cbn. repeat split; lia.
  - subst run. rewrite frame_loop_cons.
    destruct read as [frame | e]; [| loop_faulted].
    destruct (detect_and_blur_faces E frame default_confidence)
      as [[processed_frame faces_in_frame] | e] eqn:Hdetect; [| loop_faulted].
    cbn zeta.
    destruct (out_write o (frames_written (trace s)) processed_frame) as [u | e];
      [| loop_faulted].
    set (s1 := {| trace := trace s ++ [EvOutWrite processed_frame];
                  cap := cap s; out := out s |}).
    assert (Hs1 : forall a b, open_streams (trace s1) a b = open_streams (trace s) a b)
      by (intros a b; now apply open_streams_quiet).
    assert (Hfaces : faces_in E frame = faces_in_frame)
      by (unfold faces_in; now rewrite Hdetect).
    assert (Hstep : forall s2 : state,
               cap s2 = cap s -> out s2 = out s ->
               (forall a b, open_streams (trace s2) a b = open_streams (trace s) a b) ->
               let run := frame_loop E o total_frames reads (frame_count + 1)
                            (total_faces_detected + faces_in_frame) s2 in
               cap (fst run) = cap s /\ out (fst run) = out s
               /\ (forall a b, open_streams (trace (fst run)) a b
                               = open_streams (trace s) a b)
               /\ (forall frame_count' total',
                      snd run = Ok (frame_count', total') ->
                      exists frames,
                        Ok frame :: reads = map Ok frames
                        /\ frame_count' = frame_count + Z.of_nat (length frames)
                        /\ total' = total_faces_detected + total_faces E frames)).
    { intros s2 Hcap Hout Htrace run.
      destruct (IH (frame_count + 1) (total_faces_detected + faces_in_frame) s2)
        as (Hc & Ho & Ht & Hr).
      fold run in Hc, Ho, Ht, Hr.
      split; [congruence |]. split; [congruence |]. split.
      - intros a b. now rewrite Ht.
      - intros fc' tf' Hret. destruct (Hr fc' tf' Hret) as (frames & -> & -> & ->).
        exists (frame :: frames). cbn [map length total_faces fold_right].
        fold (total_faces E frames). rewrite Hfaces. repeat split; lia. }
    destruct ((frame_count + 1) mod 30 =? 0).
    + destruct (total_frames =? 0); [loop_faulted |].
      apply Hstep; cbn; trivial.
      intros a b. rewrite open_streams_quiet by exact I. apply Hs1.
    + apply Hstep; cbn; trivial.
Qed.

Lemma video_no_stream_left_open (input_path output_path : string) :
  open_streams (trace (fst (blur_faces_in_video E input_path output_path))) false false
  = (false, false).
Proof.
  unfold blur_faces_in_video, try_except, video_try.
  destruct (os_path_exists E input_path); [| reflexivity]. cbn [negb].
  unfold bind at 1, new_VideoCapture at 1.
  destruct (cv2_VideoCapture E input_path) as [c | e]; [| reflexivity].
  destruct (cap_isOpened c) eqn:Hopened; [| reflexivity]. cbn [negb].
  unfold bind at 1, lift at 1.
  destruct (cap_FPS c) as [fps | e]; [| reflexivity].
  unfold bind at 1, lift at 1.
  destruct (cap_FRAME_WIDTH c) as [width | e]; [| reflexivity].
  unfold bind at 1, lift at 1.
  destruct (cap_FRAME_HEIGHT c) as [height | e]; [| reflexivity].
  unfold bind at 1, lift at 1.
  destruct (cap_FRAME_COUNT c) as [total_frames | e]; [| reflexivity].
  unfold bind at 1, new_VideoWriter at 1.
  destruct (cv2_VideoWriter E output_path fps (width, height)) as [o | e]; [| reflexivity].
  destruct (out_isOpened o) eqn:Hwriter; [| reflexivity]. cbn [negb].
  unfold bind at 1, print at 1, emit at 1. cbn [trace cap out app].
  unfold bind at 1.
  match goal with
  | |- context [frame_loop E o total_frames (cap_read c) 0 0 ?s0] =>
      pose proof (frame_loop_spec o total_frames (cap_read c) 0 0 s0)
        as (Hcap & Hout & Htrace & _);
      destruct (frame_loop E o total_frames (cap_read c) 0 0 s0) as [s1 [[fc tf] | e]]
  end; cbn [fst snd trace cap out] in *.
  - cbn. rewrite !open_streams_app, Htrace. reflexivity.
  - unfold video_except, bind, try_pass, release_if_bound.
    rewrite Hcap. cbn. rewrite Hout. cbn.
    rewrite !open_streams_app, Htrace. reflexivity.
Qed.

(** C2. On every run of [blur_faces_in_video], whatever the collaborators
    do, no stream is open when the function returns: in the trace of the
    run, every event that opens the decode stream is followed by
    [cap.release()] and every event that opens the encode stream is
    followed by [out.release()].  This covers normal completion, the
    encoder that cannot be created and a fault anywhere in the frame
    loop. *)
Theorem video_streams_released (input_path output_path : string) :
  open_streams (trace (fst (blur_faces_in_video E input_path output_path))) false false
  = (false, false)
  /\ (forall tr1 path tr2,
        trace (fst (blur_faces_in_video E input_path output_path))
        = tr1 ++ EvVideoCapture path true :: tr2 ->
        In EvCapRelease tr2)
  /\ (forall tr1 path fps width height tr2,
        trace (fst (blur_faces_in_video E input_path output_path))
        = tr1 ++ EvVideoWriter path fps width height true :: tr2 ->
        In EvOutRelease tr2).
Proof.
  pose proof (video_no_stream_left_open input_path output_path) as Hclosed.
  split; [exact Hclosed |].
  exact (released_after_opening _ Hclosed).
Qed.

(** The loop runs to the end of the stream when every read, every
    detection and every write succeeds, and the progress report does not
    divide by a reported frame count of 0. *)
Lemma frame_loop_completes (o : VideoWriter) (total_frames : Z) (frames : list frame) :
  (forall written image, out_write o written image = Ok tt) ->
  Forall (fun image => exists r, detect_and_blur_faces E image default_confidence = Ok r)
    frames ->
  forall (frame_count total_faces_detected : Z) (s : state),
    total_frames <> 0 \/ (0 <= frame_count /\ frame_count + Z.of_nat (length frames) < 30) ->
    exists r,
      snd (frame_loop E o total_frames (map Ok frames) frame_count total_faces_detected s)
      = Ok r.
Proof.
  intros Hwrite Hdetect. induction Hdetect as [| image frames [[pf n] Himage] _ IH];
    intros frame_count total_faces_detected s Hprogress.
  - eexists. reflexivity.
  - cbn [map]. rewrite frame_loop_cons, Himage, Hwrite. cbn zeta.
    assert (Hnext : total_frames <> 0
                    \/ (0 <= frame_count + 1
                        /\ frame_count + 1 + Z.of_nat (length frames) < 30))
      by (cbn [length] in Hprogress; lia).
    destruct (Z.eqb_spec ((frame_count + 1) mod 30) 0) as [Hmod | Hmod].
    + destruct (Z.eqb_spec total_frames 0) as [Hzero | Hnonzero].
      * exfalso. cbn [length] in Hprogress.
        rewrite Z.mod_small in Hmod by lia. lia.
      * apply IH, Hnext.
    + apply IH, Hnext.
Qed.

(** The [try] block from the point where both streams are open. *)
Lemma video_try_opened (input_path output_path : string) (c : VideoCapture)
    (o : VideoWriter) (fps width height total_frames : Z) :
  os_path_exists E input_path = true ->
  cv2_VideoCapture E input_path = Ok c ->
  cap_isOpened c = true ->
  cap_FPS c = Ok fps ->
  cap_FRAME_WIDTH c = Ok width ->
  cap_FRAME_HEIGHT c = Ok height ->
  cap_FRAME_COUNT c = Ok total_frames ->
  cv2_VideoWriter E output_path fps (width, height) = Ok o ->
  out_isOpened o = true ->
  video_try E input_path output_path initial
  = let s0 := {| trace := [EvVideoCapture input_path true;
                           EvVideoWriter output_path fps width height true;
                           EvPrint (ProcessingVideo total_frames fps)];
                 cap := Some c; out := Some o |} in
    match frame_loop E o total_frames (cap_read c) 0 0 s0 with
    | (s1, Raise e) => (s1, Raise e)
    | (s1, Ok (frame_count, total_faces_detected)) =>
        ({| trace := trace s1 ++ [EvCapRelease; EvOutRelease; EvRemove input_path];
            cap := cap s1; out := out s1 |},
         Ok (true, video_message total_faces_detected frame_count))
    end.
Proof.
  intros Hexists Hcap Hopened Hfps Hwidth Hheight Hcount Hwriter Hcreated.
  unfold video_try. rewrite Hexists. cbn [negb].
  unfold bind at 1, new_VideoCapture at 1. rewrite Hcap, Hopened. cbn [negb].
  unfold bind at 1, lift at 1. rewrite Hfps.
  unfold bind at 1, lift at 1. rewrite Hwidth.
  unfold bind at 1, lift at 1. rewrite Hheight.
  unfold bind at 1, lift at 1. rewrite Hcount.
  unfold bind at 1, new_VideoWriter at 1. rewrite Hwriter, Hcreated. cbn [negb].
  unfold bind at 1, print at 1, emit at 1. cbn [trace cap out app fst snd].
  unfold bind at 1. cbn zeta.
  destruct (frame_loop E o total_frames (cap_read c) 0 0 _) as [s1 [[fc tf] | e]];
    [| reflexivity].
  unfold bind, emit, try_pass, lift, ret. cbn. rewrite <- !app_assoc. reflexivity.
Qed.

(** C5. When the input opens, the encoder is created, and the [try] block
    runs to its end without raising, every [read] before the end of the
    stream gave a frame, and the pipeline returns [True] with the message
    "Successfully processed video. N face instances detected and blurred
    across M frames." where M is the number of frames read and N the sum of
    the face counts the redactor returned for them.  The frame count
    [total_frames] reported by the container plays no part in M. *)
Theorem video_success_message (input_path output_path : string) (c : VideoCapture)
    (o : VideoWriter) (fps width height total_frames : Z) (outcome : bool * string) :
  os_path_exists E input_path = true ->
  cv2_VideoCapture E input_path = Ok c ->
  cap_isOpened c = true ->
  cap_FPS c = Ok fps ->
  cap_FRAME_WIDTH c = Ok width ->
  cap_FRAME_HEIGHT c = Ok height ->
  cap_FRAME_COUNT c = Ok total_frames ->
  cv2_VideoWriter E output_path fps (width, height) = Ok o ->
  out_isOpened o = true ->
  snd (video_try E input_path output_path initial) = Ok outcome ->
  exists frames : list frame,
    cap_read c = map Ok frames
    /\ snd (blur_faces_in_video E input_path output_path)
       = Ok (true,
             ("Successfully processed video. " ++ str_Z (total_faces E frames)
                ++ " face instances detected and blurred across "
                ++ str_Z (Z.of_nat (length frames)) ++ " frames.")%string).
Proof.
  intros Hexists Hcap Hopened Hfps Hwidth Hheight Hcount Hwriter Hcreated Hdone.
  unfold blur_faces_in_video, try_except.
  rewrite (video_try_opened _ _ _ _ _ _ _ _
             Hexists Hcap Hopened Hfps Hwidth Hheight Hcount Hwriter Hcreated) in *.
  cbn zeta in *.
  match type of Hdone with
  | context [frame_loop E o total_frames (cap_read c) 0 0 ?s0] =>
      pose proof (frame_loop_spec o total_frames (cap_read c) 0 0 s0) as (_ & _ & _ & Hret);
      destruct (frame_loop E o total_frames (cap_read c) 0 0 s0) as [s1 [[fc tf] | e]]
  end; cbn [fst snd] in *; [| discriminate Hdone].
  destruct (Hret fc tf eq_refl) as (frames & Hreads & -> & ->).
  exists frames. split; [exact Hreads |]. reflexivity.
Qed.

(** The same in terms of the collaborators alone. *)
Corollary video_succeeds_when_collaborators_work (input_path output_path : string)
    (c : VideoCapture) (o : VideoWriter) (fps width height total_frames : Z)
    (frames : list frame) :
  os_path_exists E input_path = true ->
  cv2_VideoCapture E input_path = Ok c ->
  cap_isOpened c = true ->
  cap_FPS c = Ok fps ->
  cap_FRAME_WIDTH c = Ok width ->
  cap_FRAME_HEIGHT c = Ok height ->
  cap_FRAME_COUNT c = Ok total_frames ->
  cv2_VideoWriter E output_path fps (width, height) = Ok o ->
  out_isOpened o = true ->
  cap_read c = map Ok frames ->
  (forall written image, out_write o written image = Ok tt) ->
  Forall (fun image => exists r, detect_and_blur_faces E image default_confidence = Ok r)
    frames ->
  total_frames <> 0 \/ Z.of_nat (length frames) < 30 ->
  snd (blur_faces_in_video E input_path output_path)
  = Ok (true, video_message (total_faces E frames) (Z.of_nat (length frames))).
Proof.
  intros Hexists Hcap Hopened Hfps Hwidth Hheight Hcount Hwriter Hcreated
         Hreads Hwrite Hdetect Hprogress.
  unfold blur_faces_in_video, try_except.
  rewrite (video_try_opened _ _ _ _ _ _ _ _
             Hexists Hcap Hopened Hfps Hwidth Hheight Hcount Hwriter Hcreated).
  cbn zeta. rewrite Hreads.
  match goal with
  | |- context [frame_loop E o total_frames (map Ok frames) 0 0 ?s0] =>
      destruct (frame_loop_completes o total_frames frames Hwrite Hdetect 0 0 s0)
        as [r Hr]; [lia |];
      pose proof (frame_loop_spec o total_frames (map Ok frames) 0 0 s0)
        as (_ & _ & _ & Hret);
      destruct (frame_loop E o total_frames (map Ok frames) 0 0 s0) as [s1 [[fc tf] | e]]
  end; cbn [fst snd] in *; [| discriminate Hr].
  destruct (Hret fc tf eq_refl) as (frames' & Hframes' & -> & ->).
  apply map_Ok_inj in Hframes'. subst frames'. reflexivity.
Qed.

(** With a reported frame count of 0, a loop that gets to its 30th frame
    raises [ZeroDivisionError] there, however well the collaborators
    behave. *)
Lemma frame_loop_zero_total (o : VideoWriter) (frames : list frame) :
  (forall written image, out_write o written image = Ok tt) ->
  Forall (fun image => exists r, detect_and_blur_faces E image default_confidence = Ok r)
    frames ->
  forall (frame_count total_faces_detected : Z) (s : state),
    0 <= frame_count < 30 ->
    30 <= frame_count + Z.of_nat (length frames) ->
    snd (frame_loop E o 0 (map Ok frames) frame_count total_faces_detected s)
    = Raise ZeroDivisionError.
Proof.
  intros Hwrite Hdetect. induction Hdetect as [| image frames [[pf n] Himage] _ IH];
    intros frame_count total_faces_detected s Hcount Hlong.
  - cbn [length] in Hlong. lia.
  - cbn [map]. rewrite frame_loop_cons, Himage, Hwrite. cbn zeta.
    destruct (Z.eqb_spec ((frame_count + 1) mod 30) 0) as [Hmod | Hmod]; [reflexivity |].
    assert (frame_count + 1 < 30).
    { destruct (Z.eq_dec (frame_count + 1) 30) as [Heq | Hne]; [| lia].
      rewrite Heq in Hmod. now contradiction Hmod. }
    apply IH; [lia | cbn [length] in Hlong; lia].
Qed.

Lemma video_zero_total_fails (input_path output_path : string)
    (c : VideoCapture) (o : VideoWriter) (fps width height : Z) (frames : list frame) :
  os_path_exists E input_path = true ->
  cv2_VideoCapture E input_path = Ok c ->
  cap_isOpened c = true ->
  cap_FPS c = Ok fps ->
  cap_FRAME_WIDTH c = Ok width ->
  cap_FRAME_HEIGHT c = Ok height ->
  cap_FRAME_COUNT c = Ok 0 ->
  cv2_VideoWriter E output_path fps (width, height) = Ok o ->
  out_isOpened o = true ->
  cap_read c = map Ok frames ->
  (forall written image, out_write o written image = Ok tt) ->
  Forall (fun image => exists r, detect_and_blur_faces E image default_confidence = Ok r)
    frames ->
  30 <= Z.of_nat (length frames) ->
  snd (blur_faces_in_video E input_path output_path)
  = Ok (false, "Error processing video: division by zero").
Proof.
  intros Hexists Hcap Hopened Hfps Hwidth Hheight Hcount Hwriter Hcreated
         Hreads Hwrite Hdetect Hlong.
  unfold blur_faces_in_video, try_except.
  rewrite (video_try_opened _ _ _ _ _ _ _ _
             Hexists Hcap Hopened Hfps Hwidth Hheight Hcount Hwriter Hcreated).
  cbn zeta. rewrite Hreads.
  match goal with
  | |- context [frame_loop E o 0 (map Ok frames) 0 0 ?s0] =>
      assert (Hraise : snd (frame_loop E o 0 (map Ok frames) 0 0 s0)
                       = Raise ZeroDivisionError)
        by (apply (frame_loop_zero_total o frames Hwrite Hdetect); lia);
      destruct (frame_loop E o 0 (map Ok frames) 0 0 s0) as [s1 [[fc tf] | e]]
  end; cbn [snd] in Hraise; [discriminate Hraise |].
  injection Hraise as ->. apply video_except_result.
Qed.

End Video.

(** Witness for C5: two frames with two detections each, in a container
    that reports seven frames. *)
Lemma video_success_message_witness :
  exists frames : list frame,
    cap_read (sample_capture 7 [Ok sample_frame; Ok dot]) = map Ok frames
    /\ snd (blur_faces_in_video
             (studio ["clip.mp4"] 7 [Ok sample_frame; Ok dot]
                [sample_detection; sample_detection])
             "clip.mp4" "out.mp4")
       = Ok (true,
             ("Successfully processed video. "
                ++ str_Z (total_faces
                            (studio ["clip.mp4"] 7 [Ok sample_frame; Ok dot]
                               [sample_detection; sample_detection]) frames)
                ++ " face instances detected and blurred across "
                ++ str_Z (Z.of_nat (length frames)) ++ " frames.")%string).
Proof.
  apply (video_success_message
           (studio ["clip.mp4"] 7 [Ok sample_frame; Ok dot]
              [sample_detection; sample_detection])
           "clip.mp4" "out.mp4"
           (sample_capture 7 [Ok sample_frame; Ok dot]) sample_writer 25 4 3 7
           (true, "Successfully processed video. 4 face instances detected and blurred across 2 frames."));
    vm_compute; reflexivity.
Defined.

Example video_two_frames :
  snd (blur_faces_in_video
         (studio ["clip.mp4"] 7 [Ok sample_frame; Ok dot]
            [sample_detection; sample_detection])
         "clip.mp4" "out.mp4")
  = Ok (true,
        "Successfully processed video. 4 face instances detected and blurred across 2 frames.").
Proof. vm_compute. reflexivity. Qed.

(** A decode fault on the third read: both streams are released by the
    [except] block and the fault becomes the message. *)
Example video_fault_in_loop :
  blur_faces_in_video
    (studio ["clip.mp4"] 3 [Ok dot; Ok dot; Raise (Error "decode failed")] [])
    "clip.mp4" "out.mp4"
  = ({| trace := [EvVideoCapture "clip.mp4" true;
                  EvVideoWriter "out.mp4" 25 4 3 true;
                  EvPrint (ProcessingVideo 3 25);
                  EvOutWrite dot; EvOutWrite dot;
                  EvCapRelease; EvOutRelease];
        cap := Some (sample_capture 3 [Ok dot; Ok dot; Raise (Error "decode failed")]);
        out := Some sample_writer |},
     Ok (false, "Error processing video: decode failed")).
Proof. vm_compute. reflexivity. Qed.

(** The encoder cannot be created: the decode stream is released on the
    spot. *)
Example video_encoder_not_created :
  blur_faces_in_video
    (with_writer (studio ["clip.mp4"] 1 [Ok dot] []) (Ok closed_writer))
    "clip.mp4" "out.mp4"
  = ({| trace := [EvVideoCapture "clip.mp4" true;
                  EvVideoWriter "out.mp4" 25 4 3 false;
                  EvCapRelease];
        cap := Some (sample_capture 1 [Ok dot]);
        out := Some closed_writer |},
     Ok (false, "Could not create output video file")).
Proof. vm_compute. reflexivity. Qed.

(** The [VideoWriter] constructor itself raises: [out] is not among the
    locals, and the [except] block releases [cap] alone. *)
Example video_encoder_raises :
  blur_faces_in_video
    (with_writer (studio ["clip.mp4"] 1 [Ok dot] []) (Raise (Error "codec missing")))
    "clip.mp4" "out.mp4"
  = ({| trace := [EvVideoCapture "clip.mp4" true; EvCapRelease];
        cap := Some (sample_capture 1 [Ok dot]);
        out := None |},
     Ok (false, "Error processing video: codec missing")).
Proof. vm_compute. reflexivity. Qed.

(** An image writer that raises (an output extension OpenCV has no encoder
    for) is reported, not propagated. *)
Example image_imwrite_raises :
  snd (blur_faces_in_image
         (with_failing_imwrite (studio ["portrait.png"] 0 [] []) "could not find a writer")
         "portrait.png" "out.xyz")
  = Ok (false, "Error processing image: could not find a writer").
Proof. vm_compute. reflexivity. Qed.

(** C3. The progress report can make the pipeline fail.  On a video whose
    container reports a frame count of 0 and which has 30 decodable frames,
    with every collaborator working, the 30th turn of the loop evaluates
    [frame_count / total_frames], Python raises [ZeroDivisionError], and
    [blur_faces_in_video] returns [False] instead of the success the claim
    asks for. *)
Theorem progress_report_division_by_zero :
  snd (blur_faces_in_video (studio ["clip.mp4"] 0 (repeat (Ok dot) 30) [])
         "clip.mp4" "out.mp4")
  = Ok (false, "Error processing video: division by zero").
Proof. vm_compute. reflexivity. Qed.

(** The same video succeeds as soon as the reported count is not 0, and
    with a count of 0 as long as it has fewer than 30 frames. *)
Example progress_report_nonzero_total :
  snd (blur_faces_in_video (studio ["clip.mp4"] 12 (repeat (Ok dot) 30) [])
         "clip.mp4" "out.mp4")
  = Ok (true,
        "Successfully processed video. 0 face instances detected and blurred across 30 frames.").
Proof. vm_compute. reflexivity. Qed.

Example progress_report_short_video :
  snd (blur_faces_in_video (studio ["clip.mp4"] 0 (repeat (Ok dot) 29) [])
         "clip.mp4" "out.mp4")
  = Ok (true,
        "Successfully processed video. 0 face instances detected and blurred across 29 frames.").
Proof. vm_compute. reflexivity. Qed.

(* ================================================================== *)
(** * Further properties of the region blur operator *)

(** Clamping a box a second time changes nothing, so blurring with the box
    [blur_face_region] has already clamped is blurring with the box it was
    given. *)
Lemma clamp_bbox_idempotent (image : frame) (b : Z * Z * Z * Z) :
  clamp_bbox image (clamp_bbox image b) = clamp_bbox image b.
Proof.
  destruct b as [[[x y] w] h]. cbn.
  apply f_equal2; [apply f_equal2; [apply f_equal2 |] |]; lia.
Qed.

Theorem blur_face_region_clamped_box kernel (image : frame) (b : Z * Z * Z * Z)
    (blur_factor : Z) :
  blur_face_region kernel image (clamp_bbox image b) blur_factor
  = blur_face_region kernel image b blur_factor.
Proof.
  destruct (clamp_bbox image b) as [[[x y] w] h] eqn:Heq.
  rewrite (blur_face_region_unfold kernel image b blur_factor x y w h Heq).
  apply blur_face_region_unfold.
  rewrite <- Heq. apply clamp_bbox_idempotent.
Qed.

Lemma pixel_at_GaussianBlur kernel (h w : nat) (src : frame) (ksize : Z) (i j : nat) :
  has_shape h w src -> (i < h)%nat -> (j < w)%nat ->
  pixel_at (GaussianBlur kernel src ksize) i j = Some (kernel src ksize i j).
Proof.
  intros [Hlen Hrows] Hi Hj. unfold pixel_at, GaussianBlur.
  rewrite nth_error_mapi_from.
  destruct (nth_error src i) as [row |] eqn:Hrow.
  2: { apply nth_error_None in Hrow. lia. }
  cbn. rewrite nth_error_mapi_from.
  assert (Hw : length row = w)
    by (rewrite Forall_forall in Hrows; apply Hrows; eapply nth_error_In; eassumption).
  destruct (nth_error row j) as [p |] eqn:Hp.
  2: { apply nth_error_None in Hp. lia. }
  reflexivity.
Qed.

Lemma inside_true (y h x w : Z) (i j : nat) :
  inside y h x w i j = true <->
  y <= Z.of_nat i < y + h /\ x <= Z.of_nat j < x + w.
Proof.
  unfold inside. rewrite !andb_true_iff, !Z.leb_le, !Z.ltb_lt. lia.
Qed.

(** Every pixel of the result of [blur_face_region]. *)
Lemma pixel_at_blur_face_region kernel (image : frame) (b : Z * Z * Z * Z)
    (blur_factor x y w h : Z) (i j : nat) :
  rectangular image ->
  clamp_bbox image b = (x, y, w, h) ->
  pixel_at (blur_face_region kernel image b blur_factor) i j
  = if inside y h x w i j
    then Some (kernel (slice2 y h x w image) (blur_factor * 2 + 1)
                 (i - Z.to_nat y)%nat (j - Z.to_nat x)%nat)
    else pixel_at image i j.
Proof.
  intros Hrect Heq.
  pose proof (clamp_bbox_bounds _ _ _ _ _ _ Heq) as (Hx & Hy & Hxw & Hyh).
  pose proof (rectangular_has_shape _ Hrect) as Hshape.
  rewrite (blur_face_region_unfold _ _ _ _ _ _ _ _ Heq).
  destruct (inside y h x w i j) eqn:Hin.
  - apply inside_true in Hin. destruct Hin as [Hi Hj].
    destruct (Z.leb_spec w 0) as [Hw | Hw]; [lia |].
    destruct (Z.leb_spec h 0) as [Hh | Hh]; [lia |]. cbn [orb].
    assert (Hread : has_shape (Z.to_nat h) (Z.to_nat w) (slice2 y h x w image))
      by (apply (has_shape_slice2 _ _ _ _ _ _ _ Hshape); lia).
    pose proof (has_shape_GaussianBlur kernel _ _ _ (blur_factor * 2 + 1) Hread) as Hpatch.
    assert (Hxr : 0 <= x /\ 0 <= w /\ x + w <= Z.of_nat (Z.to_nat (shape1 image))) by lia.
    assert (Hyr : 0 <= y /\ 0 <= h /\ y + h <= Z.of_nat (Z.to_nat (shape0 image))) by lia.
    rewrite (pixel_at_assign_slice2 _ _ _ _ _ _ _ _ Hshape Hpatch Hxr Hyr).
    replace (inside y h x w i j) with true by (symmetry; apply inside_true; lia).
    apply (pixel_at_GaussianBlur kernel _ _ _ _ _ _ Hread); lia.
  - destruct (Z.leb_spec w 0) as [Hw | Hw]; [reflexivity |].
    destruct (Z.leb_spec h 0) as [Hh | Hh]; [reflexivity |]. cbn [orb].
    assert (Hread : has_shape (Z.to_nat h) (Z.to_nat w) (slice2 y h x w image))
      by (apply (has_shape_slice2 _ _ _ _ _ _ _ Hshape); lia).
    pose proof (has_shape_GaussianBlur kernel _ _ _ (blur_factor * 2 + 1) Hread) as Hpatch.
    assert (Hxr : 0 <= x /\ 0 <= w /\ x + w <= Z.of_nat (Z.to_nat (shape1 image))) by lia.
    assert (Hyr : 0 <= y /\ 0 <= h /\ y + h <= Z.of_nat (Z.to_nat (shape0 image))) by lia.
    rewrite (pixel_at_assign_slice2 _ _ _ _ _ _ _ _ Hshape Hpatch Hxr Hyr).
    now rewrite Hin.
Qed.

(** Inside the clamped rectangle, the pixel [blur_face_region] writes is the
    filter's output at that position of the patch, computed from the pixels
    of the rectangle alone with a kernel of size [2 * blur_factor + 1]:
    nothing outside the rectangle enters the blur. *)
Theorem blur_face_region_inside kernel (image : frame) (b : Z * Z * Z * Z)
    (blur_factor x y w h : Z) (i j : nat) :
  rectangular image ->
  clamp_bbox image b = (x, y, w, h) ->
  inside y h x w i j = true ->
  pixel_at (blur_face_region kernel image b blur_factor) i j
  = Some (kernel (slice2 y h x w image) (blur_factor * 2 + 1)
            (i - Z.to_nat y)%nat (j - Z.to_nat x)%nat).
Proof.
  intros Hrect Heq Hin.
  rewrite (pixel_at_blur_face_region kernel image b blur_factor x y w h i j Hrect Heq).
  now rewrite Hin.
Qed.

(** Witness: the box of [blur_face_region_sample], at a pixel inside. *)
Lemma blur_face_region_inside_witness :
  rectangular sample_frame
  /\ clamp_bbox sample_frame (-1, 1, 3, 5) = (0, 1, 3, 2)
  /\ inside 1 2 0 3 2 1 = true
  /\ pixel_at (blur_face_region mean_kernel sample_frame (-1, 1, 3, 5) 100) 2 1
     = Some (grey 80).
Proof.
  split; [exact sample_frame_rectangular |]. split; [reflexivity |].
  split; [reflexivity |].
  rewrite (blur_face_region_inside mean_kernel sample_frame (-1, 1, 3, 5) 100 0 1 3 2 2 1
             sample_frame_rectangular eq_refl eq_refl).
  reflexivity.
Defined.

(** [blur_face_region] keeps a rectangular frame rectangular, with the same
    number of rows and of columns. *)
Lemma has_shape_same_shape (image image' : frame) :
  has_shape (Z.to_nat (shape0 image)) (Z.to_nat (shape1 image)) image' ->
  rectangular image'
  /\ shape0 image' = shape0 image /\ shape1 image' = shape1 image.
Proof.
  intros [Hlen Hrows].
  assert (H0 : shape0 image' = shape0 image) by (unfold shape0 in *; lia).
  assert (H1 : shape1 image' = shape1 image).
  { destruct image' as [| row rows].
    - destruct image; [reflexivity |].
      unfold shape0 in Hlen. cbn [length] in Hlen. lia.
    - cbn. inversion Hrows as [| ? ? Hrow _]; subst.
      rewrite Hrow. apply Z2Nat.id. unfold shape1. destruct image; lia. }
  split; [| split; assumption].
  unfold rectangular. rewrite H1.
  eapply Forall_impl; [| exact Hrows]. cbn. intros row Hrow.
  rewrite Hrow. apply Z2Nat.id. unfold shape1. destruct image; lia.
Qed.

Lemma blur_face_region_shape kernel (image : frame) (b : Z * Z * Z * Z) (blur_factor : Z) :
  rectangular image ->
  rectangular (blur_face_region kernel image b blur_factor)
  /\ shape0 (blur_face_region kernel image b blur_factor) = shape0 image
  /\ shape1 (blur_face_region kernel image b blur_factor) = shape1 image.
Proof.
  intro Hrect. apply has_shape_same_shape.
  destruct (clamp_bbox image b) as [[[x y] w] h] eqn:Heq.
  pose proof (clamp_bbox_bounds _ _ _ _ _ _ Heq) as (Hx & Hy & Hxw & Hyh).
  pose proof (rectangular_has_shape _ Hrect) as Hshape.
  rewrite (blur_face_region_unfold _ _ _ _ _ _ _ _ Heq).
  destruct (Z.leb_spec w 0) as [Hw | Hw]; [exact Hshape |].
  destruct (Z.leb_spec h 0) as [Hh | Hh]; [exact Hshape |]. cbn [orb].
  assert (Hread : has_shape (Z.to_nat h) (Z.to_nat w) (slice2 y h x w image))
    by (apply (has_shape_slice2 _ _ _ _ _ _ _ Hshape); lia).
  pose proof (has_shape_GaussianBlur kernel _ _ _ (blur_factor * 2 + 1) Hread) as Hpatch.
  assert (Hxr : 0 <= x /\ 0 <= w /\ x + w <= Z.of_nat (Z.to_nat (shape1 image))) by lia.
  assert (Hyr : 0 <= y /\ 0 <= h /\ y + h <= Z.of_nat (Z.to_nat (shape0 image))) by lia.
  exact (has_shape_assign_slice2 _ _ _ _ _ _ _ _ Hshape Hpatch Hxr Hyr).
Qed.

(* ================================================================== *)
(** * Further properties of the clamp-and-pad step *)

(** A relative coordinate in [0, 1] scales to a pixel coordinate in
    [0, n]. *)
Lemma int_scaled_bounds (q : Q) (n : Z) :
  in_unit_interval q -> 0 <= n -> 0 <= int (q * inject_Z n)%Q <= n.
Proof.
  destruct q as [a b]. unfold in_unit_interval, Qle, int. cbn.
  intros [Hlow Hhigh] Hn.
  rewrite Pos.mul_1_r.
  assert (Ha : 0 <= a) by lia.
  assert (Han : 0 <= a * n) by nia.
  rewrite Z.quot_div_nonneg by lia.
  split.
  - apply Z.div_pos; lia.
  - apply Z.div_le_upper_bound; [lia | nia].
Qed.

Lemma padded_region_of_scaled_box (pad : Z) (image : frame) (b : bbox.t)
    (x0 y0 w0 h0 : Z) :
  scaled_box image b = (x0, y0, w0, h0) ->
  padded_region pad image b
  = (Z.max 0 (x0 - pad), Z.max 0 (y0 - pad),
     Z.min (w0 + 2 * pad) (shape1 image - Z.max 0 (x0 - pad)),
     Z.min (h0 + 2 * pad) (shape0 image - Z.max 0 (y0 - pad))).
Proof.
  unfold scaled_box, padded_region. intro Heq. injection Heq as <- <- <- <-. reflexivity.
Qed.

Lemma scaled_box_bounds (image : frame) (b : bbox.t) (x0 y0 w0 h0 : Z) :
  in_unit_interval (bbox.xmin b) ->
  in_unit_interval (bbox.ymin b) ->
  in_unit_interval (bbox.width b) ->
  in_unit_interval (bbox.height b) ->
  scaled_box image b = (x0, y0, w0, h0) ->
  0 <= x0 <= shape1 image /\ 0 <= y0 <= shape0 image
  /\ 0 <= w0 <= shape1 image /\ 0 <= h0 <= shape0 image.
Proof.
  intros Hx Hy Hw Hh Heq. unfold scaled_box in Heq. injection Heq as <- <- <- <-.
  assert (H0 : 0 <= shape0 image) by (unfold shape0; lia).
  assert (H1 : 0 <= shape1 image) by (unfold shape1; destruct image; lia).
  repeat split; now apply int_scaled_bounds.
Qed.

(** For a detector box with coordinates in [0, 1] and a padding that is not
    negative (the code's is 20), the padded region has a width and a height
    of at least 0: together with C1 it is a well-formed region of the
    frame. *)
Theorem padded_region_extent_nonneg (pad : Z) (image : frame) (b : bbox.t) (x y w h : Z) :
  in_unit_interval (bbox.xmin b) ->
  in_unit_interval (bbox.ymin b) ->
  in_unit_interval (bbox.width b) ->
  in_unit_interval (bbox.height b) ->
  0 <= pad ->
  padded_region pad image b = (x, y, w, h) ->
  0 <= w /\ 0 <= h.
Proof.
  intros Hx Hy Hw Hh Hpad Heq.
  destruct (scaled_box image b) as [[[x0 y0] w0] h0] eqn:Hbox.
  pose proof (scaled_box_bounds _ _ _ _ _ _ Hx Hy Hw Hh Hbox) as (Bx & By & Bw & Bh).
  rewrite (padded_region_of_scaled_box pad _ _ _ _ _ _ Hbox) in Heq.
  pose proof (f_equal (fun r => fst (fst (fst r))) Heq) as Ex.
  pose proof (f_equal (fun r => snd (fst (fst r))) Heq) as Ey.
  pose proof (f_equal (fun r => snd (fst r)) Heq) as Ew.
  pose proof (f_equal snd Heq) as Eh.
  cbn [fst snd] in Ex, Ey, Ew, Eh. lia.
Qed.

(** Under the same conditions the padded region covers the part of the
    detector's box that lies in the frame: it starts no later than the box
    and ends no earlier than the box or the frame edge. *)
Theorem padded_region_covers_box (pad : Z) (image : frame) (b : bbox.t)
    (x0 y0 w0 h0 x y w h : Z) :
  in_unit_interval (bbox.xmin b) ->
  in_unit_interval (bbox.ymin b) ->
  in_unit_interval (bbox.width b) ->
  in_unit_interval (bbox.height b) ->
  0 <= pad ->
  scaled_box image b = (x0, y0, w0, h0) ->
  padded_region pad image b = (x, y, w, h) ->
  x <= x0 /\ y <= y0
  /\ Z.min (x0 + w0) (shape1 image) <= x + w
  /\ Z.min (y0 + h0) (shape0 image) <= y + h.
Proof.
  intros Hx Hy Hw Hh Hpad Hbox Heq.
  pose proof (scaled_box_bounds _ _ _ _ _ _ Hx Hy Hw Hh Hbox) as (Bx & By & Bw & Bh).
  rewrite (padded_region_of_scaled_box pad _ _ _ _ _ _ Hbox) in Heq.
  pose proof (f_equal (fun r => fst (fst (fst r))) Heq) as Ex.
  pose proof (f_equal (fun r => snd (fst (fst r))) Heq) as Ey.
  pose proof (f_equal (fun r => snd (fst r)) Heq) as Ew.
  pose proof (f_equal snd Heq) as Eh.
  cbn [fst snd] in Ex, Ey, Ew, Eh. lia.
Qed.

Lemma padded_region_extent_nonneg_witness :
  padded_region padding sample_frame sample_box = (0, 0, 4, 3) /\ 0 <= 4 /\ 0 <= 3.
Proof.
  split; [reflexivity |].
  destruct sample_box_in_unit_square as (Hx & Hy & Hw & Hh).
  apply (padded_region_extent_nonneg padding sample_frame sample_box 0 0 4 3);
    try assumption; [unfold padding; lia | reflexivity].
Defined.

Lemma padded_region_covers_box_witness :
  scaled_box sample_frame sample_box = (1, 1, 2, 1)
  /\ padded_region 1 sample_frame sample_box = (0, 0, 4, 3)
  /\ 0 <= 1 /\ 0 <= 1
  /\ Z.min (1 + 2) (shape1 sample_frame) <= 0 + 4
  /\ Z.min (1 + 1) (shape0 sample_frame) <= 0 + 3.
Proof.
  split; [reflexivity |]. split; [reflexivity |].
  destruct sample_box_in_unit_square as (Hx & Hy & Hw & Hh).
  apply (padded_region_covers_box 1 sample_frame sample_box 1 1 2 1 0 0 4 3);
    try assumption; [lia | reflexivity | reflexivity].
Defined.

(* ================================================================== *)
(** * Further properties of the frame redactor *)

(** The region computed for a detection depends on the frame only through
    its dimensions, and [blur_face_region] has nothing left to clamp in
    it. *)
Lemma padded_region_same_shape (pad : Z) (image image' : frame) (b : bbox.t) :
  shape0 image' = shape0 image -> shape1 image' = shape1 image ->
  padded_region pad image' b = padded_region pad image b.
Proof.
  intros H0 H1. unfold padded_region. now rewrite H0, H1.
Qed.

Lemma clamp_padded_region (pad : Z) (image : frame) (b : bbox.t) :
  clamp_bbox image (padded_region pad image b) = padded_region pad image b.
Proof.
  destruct (padded_region pad image b) as [[[x y] w] h] eqn:Heq.
  pose proof (padded_region_clamped _ _ _ _ _ _ _ Heq) as (Hx & Hy & Hxw & Hyh).
  cbn. apply f_equal2; [apply f_equal2; [apply f_equal2 |] |]; lia.
Qed.

Section RedactorFrames.

Variable kernel : frame -> Z -> nat -> nat -> pixel.

Lemma blur_pass_shape (image : frame) (d : Detection) :
  rectangular image ->
  rectangular (blur_pass kernel image d)
  /\ shape0 (blur_pass kernel image d) = shape0 image
  /\ shape1 (blur_pass kernel image d) = shape1 image.
Proof.
  intro Hrect. unfold blur_pass. now apply blur_face_region_shape.
Qed.

Lemma fold_blur_pass_shape (detections : list Detection) (image : frame) :
  rectangular image ->
  rectangular (fold_left (blur_pass kernel) detections image)
  /\ shape0 (fold_left (blur_pass kernel) detections image) = shape0 image
  /\ shape1 (fold_left (blur_pass kernel) detections image) = shape1 image.
Proof.
  revert image. induction detections as [| d ds IH]; intros image Hrect.
  - cbn. auto.
  - cbn [fold_left].
    destruct (blur_pass_shape image d Hrect) as (Hrect' & H0 & H1).
    destruct (IH _ Hrect') as (Hr & E0 & E1).
    split; [exact Hr |]. split; congruence.
Qed.

Lemma blur_pass_outside (image0 image : frame) (d : Detection) (i j : nat) :
  rectangular image ->
  shape0 image = shape0 image0 -> shape1 image = shape1 image0 ->
  in_region image0 d i j = false ->
  pixel_at (blur_pass kernel image d) i j = pixel_at image i j.
Proof.
  intros Hrect H0 H1 Hout. unfold blur_pass.
  unfold in_region, region_of in Hout.
  rewrite <- (padded_region_same_shape padding image0 image _ H0 H1) in Hout.
  destruct (padded_region padding image (relative_bounding_box d))
    as [[[x y] w] h] eqn:Hregion.
  assert (Hclamp : clamp_bbox image (x, y, w, h) = (x, y, w, h))
    by (rewrite <- Hregion; apply clamp_padded_region).
  rewrite (pixel_at_blur_face_region kernel image (x, y, w, h) 100 x y w h i j Hrect Hclamp).
  now rewrite Hout.
Qed.

Lemma fold_blur_pass_outside (image0 : frame) (detections : list Detection) (i j : nat) :
  (forall d, In d detections -> in_region image0 d i j = false) ->
  forall image : frame,
    rectangular image ->
    shape0 image = shape0 image0 -> shape1 image = shape1 image0 ->
    pixel_at (fold_left (blur_pass kernel) detections image) i j = pixel_at image i j.
Proof.
  induction detections as [| d ds IH]; intros Hout image Hrect H0 H1; [reflexivity |].
  cbn [fold_left].
  destruct (blur_pass_shape image d Hrect) as (Hrect' & E0 & E1).
  rewrite IH; try congruence.
  - apply (blur_pass_outside image0); trivial. apply Hout. now left.
  - intros d' Hd'. apply Hout. now right.
Qed.

End RedactorFrames.

Lemma detect_and_blur_faces_fold (E : Collaborators) (image rgb_image : frame) (c : Q)
    (detections : list Detection) :
  cv2_cvtColor_BGR2RGB E image = Ok rgb_image ->
  face_detection_process E c rgb_image = Ok detections ->
  detect_and_blur_faces E image c
  = Ok (fold_left (blur_pass (cv2_gaussian_kernel E)) detections image,
        Z.of_nat (length detections)).
Proof.
  intros Hrgb Hdet. unfold detect_and_blur_faces. rewrite Hrgb, Hdet.
  destruct detections as [| d ds]; [reflexivity |].
  now rewrite blur_detections_fold.
Qed.

Lemma detect_and_blur_faces_inv (E : Collaborators) (image processed : frame) (c : Q)
    (faces : Z) :
  detect_and_blur_faces E image c = Ok (processed, faces) ->
  exists rgb_image detections,
    cv2_cvtColor_BGR2RGB E image = Ok rgb_image
    /\ face_detection_process E c rgb_image = Ok detections
    /\ processed = fold_left (blur_pass (cv2_gaussian_kernel E)) detections image
    /\ faces = Z.of_nat (length detections).
Proof.
  intro Hret.
  destruct (cv2_cvtColor_BGR2RGB E image) as [rgb |] eqn:Hrgb.
  2: { unfold detect_and_blur_faces in Hret. rewrite Hrgb in Hret. discriminate. }
  destruct (face_detection_process E c rgb) as [ds |] eqn:Hdet.
  2: { unfold detect_and_blur_faces in Hret. rewrite Hrgb, Hdet in Hret. discriminate. }
  rewrite (detect_and_blur_faces_fold E image rgb c ds Hrgb Hdet) in Hret.
  injection Hret as <- <-. now exists rgb, ds.
Qed.

(** The redactor never changes the dimensions of a frame: whatever the
    detector reports, the frame it returns is rectangular with the rows and
    columns of the frame it was given. *)
Theorem detect_and_blur_faces_keeps_shape (E : Collaborators) (image processed : frame)
    (c : Q) (faces : Z) :
  rectangular image ->
  detect_and_blur_faces E image c = Ok (processed, faces) ->
  rectangular processed
  /\ shape0 processed = shape0 image
  /\ shape1 processed = shape1 image.
Proof.
  intros Hrect Hret.
  destruct (detect_and_blur_faces_inv _ _ _ _ _ Hret) as (rgb & ds & _ & _ & -> & _).
  now apply fold_blur_pass_shape.
Qed.

(** The redactor changes only pixels that lie in the padded region of some
    detection: a pixel outside the region of every detection the detector
    returned is the pixel of the input frame. *)
Theorem detect_and_blur_faces_outside_regions (E : Collaborators)
    (image rgb_image processed : frame) (c : Q) (detections : list Detection)
    (faces : Z) (i j : nat) :
  rectangular image ->
  cv2_cvtColor_BGR2RGB E image = Ok rgb_image ->
  face_detection_process E c rgb_image = Ok detections ->
  detect_and_blur_faces E image c = Ok (processed, faces) ->
  (forall d, In d detections -> in_region image d i j = false) ->
  pixel_at processed i j = pixel_at image i j.
Proof.
  intros Hrect Hrgb Hdet Hret Hout.
  rewrite (detect_and_blur_faces_fold E image rgb_image c detections Hrgb Hdet) in Hret.
  injection Hret as <- _.
  now apply (fold_blur_pass_outside _ image).
Qed.

Lemma strip_rectangular : rectangular strip.
Proof. repeat constructor. Qed.

(** On the strip the padded region of the corner detection is columns 0 to
    45; column 50 is outside it. *)
Example region_of_corner_detection : region_of strip corner_detection = (0, 0, 46, 1).
Proof. reflexivity. Qed.

Lemma detect_and_blur_faces_keeps_shape_witness :
  rectangular strip
  /\ exists processed,
       detect_and_blur_faces (studio [] 0 [] [corner_detection]) strip default_confidence
       = Ok (processed, 1)
       /\ rectangular processed
       /\ shape0 processed = 1 /\ shape1 processed = 60.
Proof.
  split; [exact strip_rectangular |].
  eexists. split; [vm_compute; reflexivity |].
  apply (detect_and_blur_faces_keeps_shape (studio [] 0 [] [corner_detection]) strip _
           default_confidence 1 strip_rectangular).
  vm_compute. reflexivity.
Defined.

Lemma detect_and_blur_faces_outside_regions_witness :
  rectangular strip
  /\ in_region strip corner_detection 0 50 = false
  /\ pixel_at (redacted (studio [] 0 [] [corner_detection]) strip) 0 50 = Some (grey 50).
Proof.
  split; [exact strip_rectangular |]. split; [reflexivity |].
  rewrite (detect_and_blur_faces_outside_regions (studio [] 0 [] [corner_detection])
             strip (swap_channels strip)
             (redacted (studio [] 0 [] [corner_detection]) strip)
             default_confidence [corner_detection] 1 0 50
             strip_rectangular eq_refl eq_refl).
  - reflexivity.
  - vm_compute. reflexivity.
  - intros d [<- | []]. reflexivity.
Defined.

(* ================================================================== *)
(** * Further properties of the video pipeline *)

Lemma frames_written_app (tr tr' : list event) :
  frames_written (tr ++ tr') = frames_written tr ++ frames_written tr'.
Proof. unfold frames_written. apply flat_map_app. Qed.

Section VideoRuns.

Variable E : Collaborators.

Lemma redacted_eq (image processed : frame) (faces : Z) :
  detect_and_blur_faces E image default_confidence = Ok (processed, faces) ->
  redacted E image = processed.
Proof. intro Hret. unfold redacted. now rewrite Hret. Qed.

(** The trace of the frame loop: it appends writes and progress lines only;
    the frames handed to [out.write] are the redacted frames of a prefix of
    the reads, in order, and of all the reads when the loop ends without
    raising. *)
Lemma frame_loop_trace (o : VideoWriter) (total_frames : Z) (reads : list (result frame)) :
  forall (frame_count total_faces_detected : Z) (s : state),
    let run := frame_loop E o total_frames reads frame_count total_faces_detected s in
    exists (evs : list event) (frames : list frame) (rest : list (result frame)),
      trace (fst run) = trace s ++ evs
      /\ Forall loop_event evs
      /\ reads = map Ok frames ++ rest
      /\ frames_written evs = map (redacted E) frames
      /\ (forall r, snd run = Ok r -> rest = []).
Proof.
  induction reads as [| read reads IH]; intros frame_count total_faces_detected s run.
  - exists [], [], []. subst run. cbn. rewrite app_nil_r. repeat split; trivial.
  - subst run. rewrite frame_loop_cons.
    destruct read as [frame | e].
    2: { exists [], [], (Raise e :: reads). cbn. rewrite app_nil_r.
         repeat split; trivial. discriminate. }
    destruct (detect_and_blur_faces E frame default_confidence)
      as [[processed_frame faces_in_frame] | e] eqn:Hdetect.
    2: { exists [], [], (Ok frame :: reads). cbn. rewrite app_nil_r.
         repeat split; trivial. discriminate. }
    pose proof (redacted_eq _ _ _ Hdetect) as Hredacted.
    cbn zeta.
    destruct (out_write o (frames_written (trace s)) processed_frame) as [u | e].
    2: { exists [EvOutWrite processed_frame], [frame], reads. cbn.
         rewrite Hredacted. repeat split; trivial; [repeat constructor | discriminate]. }
    assert (Hstep : forall (s2 : state) (pre : list event),
               trace s2 = trace s ++ EvOutWrite processed_frame :: pre ->
               Forall loop_event pre -> frames_written pre = [] ->
               let run := frame_loop E o total_frames reads (frame_count + 1)
                            (total_faces_detected + faces_in_frame) s2 in
               exists evs frames rest,
                 trace (fst run) = trace s ++ evs
                 /\ Forall loop_event evs
                 /\ Ok frame :: reads = map Ok frames ++ rest
                 /\ frames_written evs = map (redacted E) frames
                 /\ (forall r, snd run = Ok r -> rest = [])).
    { intros s2 pre Htrace Hpre Hnone run.
      destruct (IH (frame_count + 1) (total_faces_detected + faces_in_frame) s2)
        as (evs & frames & rest & Ht & Hevs & Hreads & Hwritten & Hdone).
      fold run in Ht, Hdone.
      exists (EvOutWrite processed_frame :: pre ++ evs), (frame :: frames), rest.
      split; [rewrite Ht, Htrace, <- app_assoc; reflexivity |].
      split; [constructor; [exact I | now apply Forall_app] |].
      split; [cbn; now rewrite Hreads |].
      split; [| exact Hdone].
      change (EvOutWrite processed_frame :: pre ++ evs)
        with ([EvOutWrite processed_frame] ++ pre ++ evs).
      rewrite !frames_written_app, Hnone, Hwritten. cbn. now rewrite Hredacted. }
    destruct ((frame_count + 1) mod 30 =? 0).
    + destruct (total_frames =? 0).
      * exists [EvOutWrite processed_frame], [frame], reads. cbn.
        rewrite Hredacted. repeat split; trivial; [repeat constructor | discriminate].
      * match goal with
        | |- context [EvPrint ?line] => apply (Hstep _ [EvPrint line])
        end.
        -- cbn. now rewrite <- app_assoc.
        -- repeat constructor.
        -- reflexivity.
    + apply (Hstep _ []); [reflexivity | constructor | reflexivity].
Qed.

Lemma video_run_cases (input_path output_path : string) :
  (exists s message,
      blur_faces_in_video E input_path output_path = (s, Ok (false, message))
      /\ early_run E input_path output_path s)
  \/ (exists c o fps width height total_frames,
      streaming_run E input_path output_path c o fps width height total_frames).
Proof.
  unfold blur_faces_in_video, try_except, video_try, early_run, streaming_run.
  destruct (os_path_exists E input_path) eqn:Hexists; cbn [negb].
  2: { left. do 2 eexists. split; [reflexivity |]. now left. }
  unfold bind at 1, new_VideoCapture at 1.
  destruct (cv2_VideoCapture E input_path) as [c | e] eqn:Hcap.
  2: { left. do 2 eexists. split; [reflexivity |]. now left. }
  destruct (cap_isOpened c) eqn:Hopened; cbn [negb].
  2: { left. do 2 eexists. split; [reflexivity |]. right. now left. }
  unfold bind at 1, lift at 1.
  destruct (cap_FPS c) as [fps | e] eqn:Hfps.
  2: { left. do 2 eexists. split; [reflexivity |]. right. right. now left. }
  unfold bind at 1, lift at 1.
  destruct (cap_FRAME_WIDTH c) as [width | e] eqn:Hwidth.
  2: { left. do 2 eexists. split; [reflexivity |]. right. right. now left. }
  unfold bind at 1, lift at 1.
  destruct (cap_FRAME_HEIGHT c) as [height | e] eqn:Hheight.
  2: { left. do 2 eexists. split; [reflexivity |]. right. right. now left. }
  unfold bind at 1, lift at 1.
  destruct (cap_FRAME_COUNT c) as [total_frames | e] eqn:Hcount.
  2: { left. do 2 eexists. split; [reflexivity |]. right. right. now left. }
  unfold bind at 1, new_VideoWriter at 1.
  destruct (cv2_VideoWriter E output_path fps (width, height)) as [o | e] eqn:Hwriter.
  2: { left. do 2 eexists. split; [reflexivity |]. right. right. now left. }
  destruct (out_isOpened o) eqn:Hcreated; cbn [negb].
  2: { left. do 2 eexists. split; [reflexivity |]. right. right. right.
       exists c, fps, width, height. repeat split; trivial. }
  right. exists c, o, fps, width, height, total_frames. repeat split; trivial.
Qed.

(** The whole of a streaming run, in terms of its frame loop. *)
Lemma video_run_streaming (input_path output_path : string) (c : VideoCapture)
    (o : VideoWriter) (fps width height total_frames : Z) :
  streaming_run E input_path output_path c o fps width height total_frames ->
  let s0 := {| trace := [EvVideoCapture input_path true;
                         EvVideoWriter output_path fps width height true;
                         EvPrint (ProcessingVideo total_frames fps)];
               cap := Some c; out := Some o |} in
  blur_faces_in_video E input_path output_path
  = match frame_loop E o total_frames (cap_read c) 0 0 s0 with
    | (s1, Ok (frame_count, total_faces_detected)) =>
        ({| trace := trace s1 ++ [EvCapRelease; EvOutRelease; EvRemove input_path];
            cap := Some c; out := Some o |},
         Ok (true, video_message total_faces_detected frame_count))
    | (s1, Raise e) =>
        ({| trace := trace s1 ++ [EvCapRelease; EvOutRelease];
            cap := Some c; out := Some o |},
         Ok (false, ("Error processing video: " ++ str e)%string))
    end.
Proof.
  intros (Hexists & Hcap & Hopened & Hfps & Hwidth & Hheight & Hcount & Hwriter & Hcreated)
         s0.
  unfold blur_faces_in_video, try_except.
  rewrite (video_try_opened E _ _ _ _ _ _ _ _
             Hexists Hcap Hopened Hfps Hwidth Hheight Hcount Hwriter Hcreated).
  cbn zeta. fold s0.
  destruct (frame_loop_spec E o total_frames (cap_read c) 0 0 s0) as (Hc & Ho & _ & _).
  destruct (frame_loop E o total_frames (cap_read c) 0 0 s0) as [s1 [[fc tf] | e]];
    cbn [fst snd cap out] in *.
  - now rewrite Hc, Ho.
  - unfold video_except, bind, try_pass, release_if_bound, emit, ret.
    rewrite Hc. cbn. rewrite Ho. cbn. now rewrite <- app_assoc.
Qed.

End VideoRuns.

Section VideoTraces.

Variable E : Collaborators.

(** The trace of a streaming run: the three opening events, the events of
    the loop, then the releases and, on success only, the removal of the
    input. *)
Lemma video_streaming_trace (input_path output_path : string) (c : VideoCapture)
    (o : VideoWriter) (fps width height total_frames : Z) :
  streaming_run E input_path output_path c o fps width height total_frames ->
  exists (evs : list event) (frames : list frame) (rest : list (result frame))
         (success : bool) (message : string),
    snd (blur_faces_in_video E input_path output_path) = Ok (success, message)
    /\ trace (fst (blur_faces_in_video E input_path output_path))
       = [EvVideoCapture input_path true;
          EvVideoWriter output_path fps width height true;
          EvPrint (ProcessingVideo total_frames fps)]
           ++ evs ++ [EvCapRelease; EvOutRelease]
           ++ (if success then [EvRemove input_path] else [])
    /\ Forall loop_event evs
    /\ cap_read c = map Ok frames ++ rest
    /\ frames_written evs = map (redacted E) frames
    /\ (success = true -> rest = []).
Proof.
  intro Hrun. rewrite (video_run_streaming E _ _ _ _ _ _ _ _ Hrun). cbn zeta.
  match goal with
  | |- context [frame_loop E o total_frames (cap_read c) 0 0 ?s0] =>
      destruct (frame_loop_trace E o total_frames (cap_read c) 0 0 s0)
        as (evs & frames & rest & Ht & Hevs & Hreads & Hwritten & Hdone);
      destruct (frame_loop E o total_frames (cap_read c) 0 0 s0) as [s1 [[fc tf] | e]]
  end; cbn [fst snd trace] in *.
  - exists evs, frames, rest, true. eexists. split; [reflexivity |].
    rewrite Ht. split; [now rewrite <- !app_assoc |].
    repeat split; trivial. intros _. now apply (Hdone (fc, tf)).
  - exists evs, frames, rest, false. eexists. split; [reflexivity |].
    rewrite Ht. split; [now rewrite <- !app_assoc, app_nil_r |].
    repeat split; trivial. discriminate.
Qed.

Lemma loop_event_In (evs : list event) (ev : event) :
  Forall loop_event evs -> In ev evs -> loop_event ev.
Proof. intros Hall Hin. rewrite Forall_forall in Hall. now apply Hall. Qed.

(** [os.remove] is called on the input file, and on no other path, exactly
    when [blur_faces_in_video] reports success: a failed run leaves the
    upload in place. *)
Theorem video_removes_input_iff_success (input_path output_path : string) :
  (forall path,
      In (EvRemove path) (trace (fst (blur_faces_in_video E input_path output_path))) ->
      path = input_path
      /\ exists message,
           snd (blur_faces_in_video E input_path output_path) = Ok (true, message))
  /\ (forall message,
      snd (blur_faces_in_video E input_path output_path) = Ok (true, message) ->
      In (EvRemove input_path)
         (trace (fst (blur_faces_in_video E input_path output_path)))).
Proof.
  destruct (video_run_cases E input_path output_path)
    as [(s & message & Hrun & Hearly) | (c & o & fps & width & height & total & Hrun)].
  - rewrite Hrun. cbn [fst snd]. split.
    + intros path Hin.
      destruct Hearly
        as [Ht | [Ht | [Ht | (c & fps & width & height & _ & _ & _ & _ & _ & Ht)]]];
        rewrite Ht in Hin; cbn in Hin;
        repeat (destruct Hin as [Hin | Hin]; try discriminate Hin); contradiction.
    + intros message' Hsuccess. discriminate Hsuccess.
  - destruct (video_streaming_trace _ _ _ _ _ _ _ _ Hrun)
      as (evs & frames & rest & success & message & Hret & Htrace & Hevs & _).
    rewrite Hret, Htrace. split.
    + intros path Hin.
      cbn [app] in Hin.
      repeat (destruct Hin as [Hin | Hin]; [discriminate Hin |]).
      apply in_app_or in Hin. destruct Hin as [Hin | Hin].
      { apply (loop_event_In _ _ Hevs) in Hin. contradiction. }
      cbn [app] in Hin.
      repeat (destruct Hin as [Hin | Hin]; [discriminate Hin |]).
      destruct success; cbn in Hin; [| contradiction].
      destruct Hin as [Hin | []]. injection Hin as <-.
      split; [reflexivity | now exists message].
    + intros message' Hsuccess. injection Hsuccess as -> _.
      cbn [app]. do 3 right. apply in_or_app. right. cbn. auto.
Qed.

(** The frames handed to the encoder are the redacted frames of the decoder,
    in decode order, one per frame, without gaps: those of a prefix of the
    stream on any run, and of the whole stream when the pipeline reports
    success. *)
Theorem video_writes_frames_in_order (input_path output_path : string)
    (c : VideoCapture) :
  cv2_VideoCapture E input_path = Ok c ->
  exists (frames : list frame) (rest : list (result frame)),
    cap_read c = map Ok frames ++ rest
    /\ frames_written (trace (fst (blur_faces_in_video E input_path output_path)))
       = map (redacted E) frames
    /\ (forall message,
          snd (blur_faces_in_video E input_path output_path) = Ok (true, message) ->
          rest = []).
Proof.
  intro Hcap.
  destruct (video_run_cases E input_path output_path)
    as [(s & message & Hrun & Hearly) | (c' & o & fps & width & height & total & Hrun)].
  - exists [], (cap_read c). rewrite Hrun. cbn [fst snd map app].
    split; [reflexivity |]. split; [| discriminate].
    destruct Hearly as [-> | [-> | [-> | (? & ? & ? & ? & _ & _ & _ & _ & _ & ->)]]];
      reflexivity.
  - assert (c' = c) as ->.
    { destruct Hrun as (_ & Hcap' & _). congruence. }
    destruct (video_streaming_trace _ _ _ _ _ _ _ _ Hrun)
      as (evs & frames & rest & success & message & Hret & Htrace & Hevs & Hreads
          & Hwritten & Hdone).
    exists frames, rest. rewrite Hret, Htrace. split; [exact Hreads |]. split.
    + rewrite !frames_written_app, Hwritten. cbn.
      destruct success; cbn; now rewrite app_nil_r.
    + intros message' Hsuccess. injection Hsuccess as -> _. now apply Hdone.
Qed.

(** The encoder is created at most once, for the output path, and only
    after the input has opened; it is given the frame rate, width and height
    read from the input. *)
Theorem video_writer_parameters (input_path output_path path : string)
    (fps width height : Z) (opened : bool) :
  In (EvVideoWriter path fps width height opened)
     (trace (fst (blur_faces_in_video E input_path output_path))) ->
  path = output_path
  /\ exists c,
       cv2_VideoCapture E input_path = Ok c
       /\ cap_isOpened c = true
       /\ cap_FPS c = Ok fps
       /\ cap_FRAME_WIDTH c = Ok width
       /\ cap_FRAME_HEIGHT c = Ok height.
Proof.
  intro Hin.
  destruct (video_run_cases E input_path output_path)
    as [(s & message & Hrun & Hearly) | (c & o & fps' & width' & height' & total & Hrun)].
  - rewrite Hrun in Hin. cbn [fst] in Hin.
    destruct Hearly
      as [Ht | [Ht | [Ht | (c & fps' & width' & height' & Hcap & Hopen & Hfps & Hw & Hh & Ht)]]];
      rewrite Ht in Hin; cbn in Hin;
      repeat (destruct Hin as [Hin | Hin]; try discriminate Hin); try contradiction.
    injection Hin as <- <- <- <- _. split; [reflexivity |]. now exists c.
  - destruct (video_streaming_trace _ _ _ _ _ _ _ _ Hrun)
      as (evs & frames & rest & success & message & _ & Htrace & Hevs & _).
    rewrite Htrace in Hin. cbn [app] in Hin.
    destruct Hin as [Hin | Hin]; [discriminate Hin |].
    destruct Hin as [Hin | Hin].
    + injection Hin as <- <- <- <- _. split; [reflexivity |].
      destruct Hrun as (_ & Hcap & Hopen & Hfps & Hw & Hh & _). now exists c.
    + destruct Hin as [Hin | Hin]; [discriminate Hin |].
      apply in_app_or in Hin. destruct Hin as [Hin | Hin].
      { apply (loop_event_In _ _ Hevs) in Hin. contradiction. }
      cbn [app] in Hin.
      repeat (destruct Hin as [Hin | Hin]; [discriminate Hin |]).
      destruct success; cbn in Hin; [destruct Hin as [Hin | []]; discriminate Hin |].
      contradiction.
Qed.

End VideoTraces.

Lemma video_writes_frames_in_order_witness :
  exists (frames : list frame) (rest : list (result frame)),
    cap_read (sample_capture 2 [Ok dot; Ok sample_frame]) = map Ok frames ++ rest
    /\ frames_written
         (trace (fst (blur_faces_in_video
                        (studio ["clip.mp4"] 2 [Ok dot; Ok sample_frame] [sample_detection])
                        "clip.mp4" "out.mp4")))
       = map (redacted (studio ["clip.mp4"] 2 [Ok dot; Ok sample_frame] [sample_detection]))
           frames
    /\ (forall message,
          snd (blur_faces_in_video
                 (studio ["clip.mp4"] 2 [Ok dot; Ok sample_frame] [sample_detection])
                 "clip.mp4" "out.mp4") = Ok (true, message) ->
          rest = []).
Proof.
  apply (video_writes_frames_in_order
           (studio ["clip.mp4"] 2 [Ok dot; Ok sample_frame] [sample_detection])
           "clip.mp4" "out.mp4" (sample_capture 2 [Ok dot; Ok sample_frame])).
  reflexivity.
Defined.

Lemma video_writer_parameters_witness :
  In (EvVideoWriter "out.mp4" 25 4 3 true)
     (trace (fst (blur_faces_in_video (studio ["clip.mp4"] 1 [Ok dot] [])
                    "clip.mp4" "out.mp4")))
  /\ exists c,
       cv2_VideoCapture (studio ["clip.mp4"] 1 [Ok dot] []) "clip.mp4" = Ok c
       /\ cap_isOpened c = true
       /\ cap_FPS c = Ok 25
       /\ cap_FRAME_WIDTH c = Ok 4
       /\ cap_FRAME_HEIGHT c = Ok 3.
Proof.
  assert (Hin : In (EvVideoWriter "out.mp4" 25 4 3 true)
                  (trace (fst (blur_faces_in_video (studio ["clip.mp4"] 1 [Ok dot] [])
                                 "clip.mp4" "out.mp4"))))
    by (vm_compute; right; left; reflexivity).
  split; [exact Hin |].
  exact (proj2 (video_writer_parameters (studio ["clip.mp4"] 1 [Ok dot] [])
                  "clip.mp4" "out.mp4" "out.mp4" 25 4 3 true Hin)).
Defined.

(* ================================================================== *)
(** * Further properties of the image pipeline *)

Section ImageRuns.

Variable E : Collaborators.

(** A file that exists but that OpenCV cannot decode ([imread] returns
    [None]) is reported as unreadable, and the pipeline stops there: the
    detector is not run and nothing is written. *)
Theorem image_unreadable (input_path output_path : string) :
  os_path_exists E input_path = true ->
  cv2_imread E input_path = Ok None ->
  blur_faces_in_image E input_path output_path
  = ({| trace := [EvImread input_path]; cap := None; out := None |},
     Ok (false, "Could not read image file. Please check the file format.")).
Proof.
  intros Hexists Hread.
  unfold blur_faces_in_image, try_except, image_try. rewrite Hexists. cbn [negb].
  unfold bind, emit, lift. cbn. rewrite Hread. reflexivity.
Qed.

(** Every run of [blur_faces_in_image]: it reads the input at most once,
    writes at most once, to the output path and after the read, and does
    nothing else (it opens no stream and removes no file).  When it reports
    success, [imwrite] was called on the output path with the redacted
    frame of the image read, and returned [True]. *)
Theorem image_trace (input_path output_path : string) :
  (trace (fst (blur_faces_in_image E input_path output_path)) = []
   \/ trace (fst (blur_faces_in_image E input_path output_path)) = [EvImread input_path]
   \/ exists processed,
        trace (fst (blur_faces_in_image E input_path output_path))
        = [EvImread input_path; EvImwrite output_path processed])
  /\ (forall message,
        snd (blur_faces_in_image E input_path output_path) = Ok (true, message) ->
        exists image,
          cv2_imread E input_path = Ok (Some image)
          /\ trace (fst (blur_faces_in_image E input_path output_path))
             = [EvImread input_path; EvImwrite output_path (redacted E image)]
          /\ cv2_imwrite E output_path (redacted E image) = Ok true
          /\ message = ("Successfully processed image. " ++ str_Z (faces_in E image)
                          ++ " face(s) detected and blurred.")%string).
Proof.
  unfold blur_faces_in_image, try_except, image_try.
  destruct (os_path_exists E input_path); cbn [negb].
  2: { cbn. split; [now left | discriminate]. }
  unfold bind, emit, lift, ret. cbn.
  destruct (cv2_imread E input_path) as [[image |] | e]; cbn.
  2, 3: split; [right; now left | discriminate].
  destruct (detect_and_blur_faces E image default_confidence) as [[processed faces] | e]
    eqn:Hdetect; cbn.
  2: split; [right; now left | discriminate].
  destruct (cv2_imwrite E output_path processed) as [[|] | e] eqn:Hwrite; cbn.
  2, 3: split; [right; right; now exists processed | discriminate].
  split; [right; right; now exists processed |].
  intros message Hret. injection Hret as <-.
  exists image. unfold redacted, faces_in. rewrite Hdetect. repeat split; trivial.
Qed.

End ImageRuns.

Lemma image_unreadable_witness :
  blur_faces_in_image
    {| os_path_exists := fun _ => true;
       os_remove := fun _ => Ok tt;
       cv2_imread := fun _ => Ok None;
       cv2_imwrite := fun _ _ => Ok true;
       cv2_cvtColor_BGR2RGB := fun image => Ok image;
       cv2_gaussian_kernel := mean_kernel;
       cv2_VideoCapture := fun _ => Raise (Error "not a video");
       cv2_VideoWriter := fun _ _ _ => Ok sample_writer;
       face_detection_process := fun _ _ => Ok [] |}
    "broken.png" "out.png"
  = ({| trace := [EvImread "broken.png"]; cap := None; out := None |},
     Ok (false, "Could not read image file. Please check the file format.")).
Proof.
  apply image_unreadable; reflexivity.
Defined.

(* ================================================================== *)
(** * [get_video_info] *)


Section VideoInfoRuns.

Variable E : Collaborators.


(** A video whose container reports a frame rate of 0 makes the duration
    division raise: [get_video_info] answers with the error entry, and the
    capture it opened is still open when it returns. *)
Theorem get_video_info_zero_fps (video_path : string) (c : VideoCapture)
    (width height frame_count : Z) :
  cv2_VideoCapture E video_path = Ok c ->
  cap_isOpened c = true ->
  cap_FPS c = Ok 0 ->
  cap_FRAME_WIDTH c = Ok width ->
  cap_FRAME_HEIGHT c = Ok height ->
  cap_FRAME_COUNT c = Ok frame_count ->
  snd (get_video_info E video_path)
    = Ok (InfoError "Error getting video info: division by zero")
  /\ open_streams (trace (fst (get_video_info E video_path))) false false = (true, false).
Proof.
  intros Hcap Hopened Hfps Hwidth Hheight Hcount.
  assert (Hrun : get_video_info E video_path
                 = ({| trace := [EvVideoCapture video_path true];
                       cap := Some c; out := None |},
                    Ok (InfoError "Error getting video info: division by zero"))).
  { unfold get_video_info, try_except, video_info_try.
    unfold bind, new_VideoCapture, lift. rewrite Hcap, Hopened. cbn [negb].
    rewrite Hfps, Hwidth, Hheight, Hcount. reflexivity. }
  rewrite Hrun. split; reflexivity.
Qed.

End VideoInfoRuns.

Lemma get_video_info_zero_fps_witness :
  snd (get_video_info (with_capture (studio [] 0 [] []) (Ok (capture_reporting 0 250)))
         "clip.avi")
    = Ok (InfoError "Error getting video info: division by zero")
  /\ open_streams
       (trace (fst (get_video_info
                      (with_capture (studio [] 0 [] []) (Ok (capture_reporting 0 250)))
                      "clip.avi"))) false false
     = (true, false).
Proof.
  apply (get_video_info_zero_fps
           (with_capture (studio [] 0 [] []) (Ok (capture_reporting 0 250)))
           "clip.avi" (capture_reporting 0 250) 4 3 250); reflexivity.
Defined.

Example get_video_info_ten_seconds :
  get_video_info (with_capture (studio [] 0 [] []) (Ok (capture_reporting 25 250)))
    "clip.avi"
  = ({| trace := [EvVideoCapture "clip.avi" true; EvCapRelease];
        cap := Some (capture_reporting 25 250); out := None |},
     Ok (Info 25 4 3 250 (inject_Z 250 / inject_Z 25)%Q)).
Proof. reflexivity. Qed.

(* ================================================================== *)
(** * File names *)

Lemma lower_char_idempotent (c : ascii) : lower_char (lower_char c) = lower_char c.
Proof. destruct c as [[] [] [] [] [] [] [] []]; reflexivity. Qed.

Lemma lower_char_dot (c : ascii) : (lower_char c =? ".")%char = (c =? ".")%char.
Proof. destruct c as [[] [] [] [] [] [] [] []]; reflexivity. Qed.

Lemma lower_idempotent (s : string) : lower (lower s) = lower s.
Proof.
  induction s as [| c s IH]; cbn; [reflexivity |].
  now rewrite lower_char_idempotent, IH.
Qed.

Lemma has_dot_lower (s : string) : has_dot (lower s) = has_dot s.
Proof.
  induction s as [| c s IH]; cbn; [reflexivity |].
  now rewrite lower_char_dot, IH.
Qed.

Lemma has_dot_app (a b : string) : has_dot (a ++ b) = has_dot a || has_dot b.
Proof.
  induction a as [| c a IH]; cbn; [reflexivity |].
  now rewrite IH, orb_assoc.
Qed.

Lemma rsplit_dot_None (s : string) : rsplit_dot s = None <-> has_dot s = false.
Proof.
  induction s as [| c s IH]; cbn; [tauto |].
  destruct (rsplit_dot s) as [[before after] |].
  - split; [discriminate |]. intro Hno. apply orb_false_elim in Hno.
    destruct Hno as [_ Hno]. apply IH in Hno. discriminate Hno.
  - destruct (c =? ".")%char; cbn.
    + split; discriminate.
    + tauto.
Qed.

(** The last dot splits the name: what follows it has no dot. *)
Lemma rsplit_dot_Some (s before after : string) :
  rsplit_dot s = Some (before, after) ->
  s = (before ++ "." ++ after)%string /\ has_dot after = false.
Proof.
  revert before. induction s as [| c s IH]; intros before Hsplit; cbn in Hsplit;
    [discriminate |].
  destruct (rsplit_dot s) as [[b a] |] eqn:Hrec.
  - injection Hsplit as <- <-. destruct (IH b eq_refl) as [-> Hno].
    split; [reflexivity | exact Hno].
  - destruct (Ascii.eqb_spec c "."%char) as [-> | Hne]; [| discriminate].
    injection Hsplit as <- <-. split; [reflexivity |]. now apply rsplit_dot_None.
Qed.

Lemma rsplit_dot_app (before after : string) :
  has_dot after = false ->
  rsplit_dot (before ++ "." ++ after) = Some (before, after).
Proof.
  intro Hno. induction before as [| c before IH]; cbn.
  - apply rsplit_dot_None in Hno. now rewrite Hno.
  - cbn in IH. now rewrite IH.
Qed.

(** The extension test the three predicates share. *)
Lemma extension_test (S : list string) (stem ext : string) :
  has_dot ext = false ->
  has_dot (stem ++ "." ++ ext)
    && in_set (lower (nth 1 (rsplit (stem ++ "." ++ ext)) "")) S
  = in_set (lower ext) S.
Proof.
  intro Hno. rewrite has_dot_app. cbn [has_dot append].
  rewrite Ascii.eqb_refl, orb_true_r. cbn [andb orb].
  unfold rsplit. change (String "." ext) with ("." ++ ext)%string.
  now rewrite (rsplit_dot_app stem ext Hno).
Qed.

(** Only the text after the last dot decides, whatever its case: a name
    [stem.ext] is allowed exactly when the lower-cased [ext] is one of the
    six extensions, and is an image (a video) exactly when it is one of the
    three image (video) extensions. *)
Theorem allowed_file_by_extension (stem ext : string) :
  has_dot ext = false ->
  allowed_file (stem ++ "." ++ ext) = in_set (lower ext) ALLOWED_EXTENSIONS
  /\ is_image_file (stem ++ "." ++ ext) = in_set (lower ext) ALLOWED_IMAGE_EXTENSIONS
  /\ is_video_file (stem ++ "." ++ ext) = in_set (lower ext) ALLOWED_VIDEO_EXTENSIONS.
Proof.
  intro Hno. unfold allowed_file, is_image_file, is_video_file.
  repeat split; now apply extension_test.
Qed.

Lemma allowed_file_by_extension_witness :
  has_dot "JPG" = false
  /\ allowed_file "holiday.photo.JPG" = true
  /\ is_image_file "holiday.photo.JPG" = true
  /\ is_video_file "holiday.photo.JPG" = false.
Proof.
  split; [reflexivity |].
  exact (allowed_file_by_extension "holiday.photo" "JPG" eq_refl).
Defined.

Lemma in_set_disjoint (ext : string) :
  in_set ext ALLOWED_IMAGE_EXTENSIONS && in_set ext ALLOWED_VIDEO_EXTENSIONS = false.
Proof.
  unfold in_set, ALLOWED_IMAGE_EXTENSIONS, ALLOWED_VIDEO_EXTENSIONS. cbn [existsb].
  destruct (String.eqb_spec ext "png") as [-> | _]; [reflexivity |].
  destruct (String.eqb_spec ext "jpg") as [-> | _]; [reflexivity |].
  destruct (String.eqb_spec ext "jpeg") as [-> | _]; reflexivity.
Qed.

Lemma allowed_file_image_or_video (filename : string) :
  allowed_file filename = is_image_file filename || is_video_file filename.
Proof.
  unfold allowed_file, is_image_file, is_video_file, ALLOWED_EXTENSIONS.
  destruct (has_dot filename); cbn [andb]; [| reflexivity].
  unfold in_set. apply existsb_app.
Qed.

(** Every name is classified consistently: it is allowed exactly when it is
    an image or a video, and it is never both. *)
Theorem allowed_file_classes (filename : string) :
  allowed_file filename = is_image_file filename || is_video_file filename
  /\ is_image_file filename && is_video_file filename = false.
Proof.
  split; [apply allowed_file_image_or_video |].
  unfold is_image_file, is_video_file.
  destruct (has_dot filename); cbn [andb]; [| reflexivity].
  apply in_set_disjoint.
Qed.

Lemma generate_unique_filename_class (S : list string) (unique_id original : string) :
  in_set "" S = false ->
  has_dot (generate_unique_filename unique_id original)
    && in_set (lower (nth 1 (rsplit (generate_unique_filename unique_id original)) "")) S
  = has_dot original && in_set (lower (nth 1 (rsplit original) "")) S.
Proof.
  intro Hempty. unfold generate_unique_filename.
  destruct (has_dot original) eqn:Hdot; cbn [andb].
  - destruct (rsplit_dot original) as [[before after] |] eqn:Hsplit.
    2: { apply rsplit_dot_None in Hsplit. congruence. }
    destruct (rsplit_dot_Some _ _ _ Hsplit) as [_ Hno].
    assert (Hext : nth 1 (rsplit original) "" = after)
      by (unfold rsplit; now rewrite Hsplit).
    rewrite Hext.
    rewrite extension_test by (now rewrite has_dot_lower).
    now rewrite lower_idempotent.
  - rewrite extension_test by reflexivity. exact Hempty.
Qed.

(** Renaming an upload keeps its type: the unique name that
    [generate_unique_filename] builds, whatever the identifier, is an image
    (a video, allowed) exactly when the original name is. *)
Theorem generate_unique_filename_keeps_type (unique_id original : string) :
  is_image_file (generate_unique_filename unique_id original) = is_image_file original
  /\ is_video_file (generate_unique_filename unique_id original) = is_video_file original
  /\ allowed_file (generate_unique_filename unique_id original) = allowed_file original.
Proof.
  unfold is_image_file, is_video_file, allowed_file.
  repeat split; now apply generate_unique_filename_class.
Qed.

(* ================================================================== *)
(** * The upload handler *)

Lemma append_assoc (a b c : string) : ((a ++ b) ++ c = a ++ b ++ c)%string.
Proof. induction a as [| x a IH]; cbn; [reflexivity | now rewrite IH]. Qed.

Lemma prefix_class (S : list string) (prefix name : string) :
  has_dot prefix = false ->
  has_dot (prefix ++ name) && in_set (lower (nth 1 (rsplit (prefix ++ name)) "")) S
  = has_dot name && in_set (lower (nth 1 (rsplit name) "")) S.
Proof.
  intro Hprefix. rewrite has_dot_app, Hprefix. cbn [orb].
  destruct (has_dot name) eqn:Hdot; cbn [andb]; [| reflexivity].
  destruct (rsplit_dot name) as [[before after] |] eqn:Hsplit.
  2: { apply rsplit_dot_None in Hsplit. congruence. }
  destruct (rsplit_dot_Some _ _ _ Hsplit) as [Hname Hno].
  assert (Hext : nth 1 (rsplit name) "" = after) by (unfold rsplit; now rewrite Hsplit).
  assert (Hext' : nth 1 (rsplit (prefix ++ name)) "" = after).
  { unfold rsplit. rewrite Hname.
    replace (prefix ++ before ++ "." ++ after)%string
      with ((prefix ++ before) ++ "." ++ after)%string
      by (now rewrite append_assoc).
    now rewrite (rsplit_dot_app _ _ Hno). }
  now rewrite Hext, Hext'.
Qed.

Lemma video_result_filename_is_video (unique_filename : string) :
  is_video_file (video_result_filename unique_filename) = true.
Proof.
  unfold is_video_file, video_result_filename.
  replace ("blurred_" ++ nth 0 (rsplit unique_filename) "" ++ ".mp4")%string
    with (("blurred_" ++ nth 0 (rsplit unique_filename) "") ++ "." ++ "mp4")%string
    by (now rewrite append_assoc).
  now rewrite extension_test.
Qed.

Lemma image_result_filename_is_image (unique_filename : string) :
  is_image_file (image_result_filename unique_filename) = is_image_file unique_filename.
Proof.
  unfold is_image_file, image_result_filename. now apply prefix_class.
Qed.

(** The name under which a result is stored and offered for download has
    the type of the upload: the result of a video always ends in [.mp4],
    whatever container was uploaded, and the result of an image keeps the
    image's extension. *)
Theorem result_filenames_keep_type (unique_filename : string) :
  is_video_file (video_result_filename unique_filename) = true
  /\ is_image_file (image_result_filename unique_filename) = is_image_file unique_filename.
Proof.
  split; [apply video_result_filename_is_video | apply image_result_filename_is_image].
Qed.

Section Upload.

Variables (W : Web) (E : Collaborators).

(** A request answered with 400 or 413 was turned down before anything was
    saved or processed. *)
Theorem upload_rejected_before_save (files : request_files) (body : json) (status : Z) :
  snd (upload_file W E files) = Some (body, status) ->
  status = 400 \/ status = 413 ->
  fst (upload_file W E files) = [].
Proof.
  unfold upload_file, unexpected.
  destruct files as [| e | [file |]]; try reflexivity.
  destruct (file_filename file =? "")%string; [reflexivity |].
  destruct (negb (allowed_file (file_filename file))); [reflexivity |].
  cbn zeta.
  destruct (file_save file _) as [u | e]; cbn [fst snd].
  2: { intros Hret [-> | ->]; discriminate Hret. }
  destruct (is_image_file _).
  { cbn [fst snd].
    destruct (snd (blur_faces_in_image E _ _)) as [[[|] message] | e];
      intros Hret [-> | ->]; discriminate Hret. }
  destruct (is_video_file _).
  { cbn [fst snd].
    destruct (snd (blur_faces_in_video E _ _)) as [[[|] message] | e];
      intros Hret [-> | ->]; discriminate Hret. }
  discriminate.
Qed.

(** The handler runs off its end, giving Flask no response, in exactly one
    situation: the client's file name has an allowed extension, the upload
    was saved, but the name [secure_filename] made of it no longer has one.
    The upload is then removed again; it is the only case in which the
    handler removes it. *)
Theorem upload_without_response (files : request_files) :
  (snd (upload_file W E files) = None
   <-> exists file u,
         files = Files (Some file)
         /\ file_filename file <> ""
         /\ allowed_file (file_filename file) = true
         /\ allowed_file (secure_filename W (file_filename file)) = false
         /\ file_save file
              (path_join UPLOAD_FOLDER
                 (generate_unique_filename (uuid4 W)
                    (secure_filename W (file_filename file)))) = Ok u)
  /\ (forall path,
        In (WebRemove path) (fst (upload_file W E files)) ->
        snd (upload_file W E files) = None).
Proof.
  unfold upload_file.
  destruct files as [| e | [file |]].
  1, 2, 4: split; [split; [discriminate | intros (f & u & Hf & _); discriminate Hf]
                 | intros path []].
  destruct (String.eqb_spec (file_filename file) "") as [Hempty | Hname].
  { split; [split; [discriminate |] | intros path []].
    intros (f & u & Hf & Hne & _). injection Hf as <-. contradiction. }
  destruct (allowed_file (file_filename file)) eqn:Hallowed; cbn [negb].
  2: { split; [split; [discriminate |] | intros path []].
       intros (f & u & Hf & _ & Ha & _). injection Hf as <-. congruence. }
  cbn zeta.
  pose proof (allowed_file_image_or_video
                (generate_unique_filename (uuid4 W) (secure_filename W (file_filename file))))
    as Hclass.
  unfold allowed_file at 1 in Hclass.
  rewrite (generate_unique_filename_class ALLOWED_EXTENSIONS) in Hclass by reflexivity.
  fold (allowed_file (secure_filename W (file_filename file))) in Hclass.
  destruct (file_save file _) as [u | e] eqn:Hsave; cbn [fst snd].
  2: { split; [split; [discriminate |] |].
       - intros (f & u & Hf & _ & _ & _ & Hs). injection Hf as <-. congruence.
       - intros path [Hin | []]. discriminate Hin. }
  destruct (is_image_file _) eqn:Himage; cbn [fst snd].
  { split; [split; [discriminate |] |].
    - intros (f & u' & Hf & _ & _ & Hsec & _). injection Hf as <-.
      rewrite Hsec in Hclass. discriminate Hclass.
    - intros path [Hin | [Hin | []]]; discriminate Hin. }
  destruct (is_video_file _) eqn:Hvideo; cbn [fst snd].
  { split; [split; [discriminate |] |].
    - intros (f & u' & Hf & _ & _ & Hsec & _). injection Hf as <-.
      rewrite Hsec in Hclass. discriminate Hclass.
    - intros path [Hin | [Hin | []]]; discriminate Hin. }
  split; [| reflexivity].
  split; [| reflexivity].
  intros _. exists file, u. repeat split; trivial.
Qed.

(** A 200 answer is given only after a pipeline has reported success on the
    saved upload; it carries the pipeline's message and names a result file
    of the reported type. *)
Theorem upload_success (files : request_files) (body : json) :
  snd (upload_file W E files) = Some (body, 200) ->
  exists file_type name upload message,
    body = JsonResult file_type (url_for_static W ("results/" ++ name)%string)
             (url_for_download W name) message
    /\ In (WebSave upload) (fst (upload_file W E files))
    /\ ((file_type = "image"
         /\ is_image_file name = true
         /\ snd (blur_faces_in_image E upload (path_join RESULTS_FOLDER name))
            = Ok (true, message))
        \/ (file_type = "video"
            /\ is_video_file name = true
            /\ snd (blur_faces_in_video E upload (path_join RESULTS_FOLDER name))
               = Ok (true, message))).
Proof.
  unfold upload_file, unexpected.
  destruct files as [| e | [file |]]; try discriminate.
  destruct (file_filename file =? "")%string; [discriminate |].
  destruct (negb (allowed_file (file_filename file))); [discriminate |].
  cbn zeta.
  destruct (file_save file _) as [u | e]; cbn [fst snd]; [| discriminate].
  destruct (is_image_file _) eqn:Himage; cbn [fst snd].
  { destruct (snd (blur_faces_in_image E _ _)) as [[[|] message] | e] eqn:Hrun;
      try discriminate.
    intro Hret. injection Hret as <-.
    do 4 eexists. split; [reflexivity |]. split; [now left |].
    left. split; [reflexivity |]. split; [| exact Hrun].
    now rewrite image_result_filename_is_image. }
  destruct (is_video_file _) eqn:Hvideo; cbn [fst snd]; [| discriminate].
  destruct (snd (blur_faces_in_video E _ _)) as [[[|] message] | e] eqn:Hrun;
    try discriminate.
  intro Hret. injection Hret as <-.
  do 4 eexists. split; [reflexivity |]. split; [now left |].
  right. split; [reflexivity |]. split; [| exact Hrun].
  apply video_result_filename_is_video.
Qed.

End Upload.

Lemma upload_rejected_before_save_witness :
  snd (upload_file sample_web (studio [] 0 [] []) (Files (Some (sample_upload "notes.txt"))))
    = Some (JsonError "File type not supported. Please upload images (jpg, jpeg, png) or videos (mp4, avi, mov)", 400)
  /\ fst (upload_file sample_web (studio [] 0 [] [])
            (Files (Some (sample_upload "notes.txt")))) = [].
Proof.
  split; [reflexivity |].
  apply (upload_rejected_before_save sample_web (studio [] 0 [] [])
           (Files (Some (sample_upload "notes.txt")))
           (JsonError "File type not supported. Please upload images (jpg, jpeg, png) or videos (mp4, avi, mov)")
           400).
  - reflexivity.
  - now left.
Defined.

Lemma upload_success_witness :
  exists file_type name upload message,
    JsonResult "video"
      "/static/results/blurred_0b5f8a52-5c1e-4f0e-9a63-3d1f0e6c7a11.mp4"
      "/download/blurred_0b5f8a52-5c1e-4f0e-9a63-3d1f0e6c7a11.mp4"
      "Successfully processed video. 0 face instances detected and blurred across 1 frames."
    = JsonResult file_type (url_for_static sample_web ("results/" ++ name)%string)
        (url_for_download sample_web name) message
    /\ In (WebSave upload)
          (fst (upload_file sample_web
                  (studio ["static/uploads/0b5f8a52-5c1e-4f0e-9a63-3d1f0e6c7a11.avi"] 1
                     [Ok dot] [])
                  (Files (Some (sample_upload "Party.AVI")))))
    /\ ((file_type = "image"
         /\ is_image_file name = true
         /\ snd (blur_faces_in_image
                   (studio ["static/uploads/0b5f8a52-5c1e-4f0e-9a63-3d1f0e6c7a11.avi"] 1
                      [Ok dot] [])
                   upload (path_join RESULTS_FOLDER name))
            = Ok (true, message))
        \/ (file_type = "video"
            /\ is_video_file name = true
            /\ snd (blur_faces_in_video
                      (studio ["static/uploads/0b5f8a52-5c1e-4f0e-9a63-3d1f0e6c7a11.avi"] 1
                         [Ok dot] [])
                      upload (path_join RESULTS_FOLDER name))
               = Ok (true, message))).
Proof.
  apply (upload_success sample_web
           (studio ["static/uploads/0b5f8a52-5c1e-4f0e-9a63-3d1f0e6c7a11.avi"] 1 [Ok dot] [])
           (Files (Some (sample_upload "Party.AVI")))).
  vm_compute. reflexivity.
Defined.

(** A client file name made of an extension alone passes [allowed_file];
    with a sanitiser that drops leading dots the unique name has no
    extension left, and the handler returns nothing. *)
Example upload_dot_png :
  upload_file sample_web (studio [] 0 [] []) (Files (Some (sample_upload ".png")))
  = ([WebSave "static/uploads/0b5f8a52-5c1e-4f0e-9a63-3d1f0e6c7a11.";
      WebRemove "static/uploads/0b5f8a52-5c1e-4f0e-9a63-3d1f0e6c7a11."],
     None).
Proof. vm_compute. reflexivity. Qed.

(* ================================================================== *)
(** * Progress lines *)

Lemma progress_counts_app (tr tr' : list event) :
  progress_counts (tr ++ tr') = progress_counts tr ++ progress_counts tr'.
Proof. unfold progress_counts. apply flat_map_app. Qed.

Section Progress.

Variable E : Collaborators.

Lemma frame_loop_progress (o : VideoWriter) (total_frames : Z) (reads : list (result frame)) :
  forall (frame_count total_faces_detected : Z) (s : state) (r : Z * Z),
    snd (frame_loop E o total_frames reads frame_count total_faces_detected s) = Ok r ->
    progress_counts
      (trace (fst (frame_loop E o total_frames reads frame_count total_faces_detected s)))
    = progress_counts (trace s)
        ++ filter multiple_of_30 (frame_numbers frame_count (length reads)).
Proof.
  induction reads as [| read reads IH]; intros frame_count total_faces_detected s r.
  - cbn. intros _. now rewrite app_nil_r.
  - rewrite frame_loop_cons.
    destruct read as [frame | e]; [| discriminate].
    destruct (detect_and_blur_faces E frame default_confidence)
      as [[processed_frame faces_in_frame] | e]; [| discriminate].
    cbn zeta.
    destruct (out_write o (frames_written (trace s)) processed_frame) as [u | e];
      [| discriminate].
    cbn [length frame_numbers filter]. unfold multiple_of_30 at 1.
    destruct ((frame_count + 1) mod 30 =? 0).
    + destruct (total_frames =? 0); [discriminate |].
      intro Hret. rewrite (IH _ _ _ r Hret). cbn [trace].
      rewrite !progress_counts_app. cbn. now rewrite <- !app_assoc.
    + intro Hret. rewrite (IH _ _ _ r Hret). cbn [trace].
      rewrite !progress_counts_app. cbn. now rewrite app_nil_r.
Qed.

(** On a successful run a progress line is printed after frame [n] exactly
    when [n] is a multiple of 30: the frame counts of the progress lines
    are the multiples of 30 among 1, ..., M, in increasing order, M being
    the number of frames of the video. *)
Theorem video_progress_every_30_frames (input_path output_path : string)
    (c : VideoCapture) (message : string) :
  cv2_VideoCapture E input_path = Ok c ->
  snd (blur_faces_in_video E input_path output_path) = Ok (true, message) ->
  progress_counts (trace (fst (blur_faces_in_video E input_path output_path)))
  = filter multiple_of_30 (frame_numbers 0 (length (cap_read c))).
Proof.
  intros Hcap Hsuccess.
  destruct (video_run_cases E input_path output_path)
    as [(s & message' & Hrun & _) | (c' & o & fps & width & height & total & Hrun)].
  - rewrite Hrun in Hsuccess. discriminate Hsuccess.
  - assert (c' = c) as ->.
    { destruct Hrun as (_ & Hcap' & _). congruence. }
    rewrite (video_run_streaming E _ _ _ _ _ _ _ _ Hrun) in *. cbn zeta in *.
    match goal with
    | |- context [frame_loop E o total (cap_read c) 0 0 ?s0] =>
        pose proof (frame_loop_progress o total (cap_read c) 0 0 s0) as Hprogress;
        destruct (frame_loop E o total (cap_read c) 0 0 s0) as [s1 [[fc tf] | e]]
    end; cbn [fst snd trace] in *; [| discriminate Hsuccess].
    rewrite progress_counts_app, (Hprogress (fc, tf) eq_refl). cbn.
    now rewrite app_nil_r.
Qed.

End Progress.

Lemma video_progress_every_30_frames_witness :
  progress_counts
    (trace (fst (blur_faces_in_video (studio ["clip.mp4"] 61 (repeat (Ok dot) 61) [])
                   "clip.mp4" "out.mp4")))
  = [30; 60].
Proof.
  rewrite (video_progress_every_30_frames
             (studio ["clip.mp4"] 61 (repeat (Ok dot) 61) [])
             "clip.mp4" "out.mp4" (sample_capture 61 (repeat (Ok dot) 61))
             "Successfully processed video. 0 face instances detected and blurred across 61 frames.").
  - reflexivity.
  - reflexivity.
  - vm_compute. reflexivity.
Defined.
